(** * Verification of the documentation testing tool

    A shallow embedding of
    [skills/documentation-generator-pro/scripts/test_docs.py]
    (class [DocumentationTester], class [LinkChecker] and [main]) and the
    properties of its validation run.

    Python strings are modelled by [string]: one [ascii] per code point, so
    the development covers documents whose code points are below 256.  The
    methods of [str] and the regular expressions the tool uses are written out
    as functions; the operating system (pathlib, tempfile, subprocess,
    requests) is an interface, [Platform], over an explicit file system. *)

From Stdlib Require Import String Ascii List Bool Arith Lia DecimalString.
From stdpp Require Import gmap strings list.

(** ** Python's [str] methods *)

Module Str.

Definition chr (n : nat) : ascii := ascii_of_nat n.

(** The newline and the double quote, as one-character strings. *)
Definition nl : string := String (chr 10) "".
Definition dq : string := String (chr 34) "".

(** [c.isspace()], which is also the class [\s] of [re]. *)
Definition isspace (c : ascii) : bool :=
  let n := nat_of_ascii c in
  ((9 <=? n) && (n <=? 13)) || ((28 <=? n) && (n <=? 32))
  || (n =? 133) || (n =? 160).

(** The class [\w] of [re] on [str] patterns: [c.isalnum()] or an
    underscore. *)
Definition isword (c : ascii) : bool :=
  let n := nat_of_ascii c in
  ((48 <=? n) && (n <=? 57)) || ((65 <=? n) && (n <=? 90))
  || (n =? 95) || ((97 <=? n) && (n <=? 122))
  || (n =? 170) || (n =? 178) || (n =? 179) || (n =? 181)
  || (n =? 185) || (n =? 186) || ((188 <=? n) && (n <=? 190))
  || ((192 <=? n) && (n <=? 214)) || ((216 <=? n) && (n <=? 246))
  || (248 <=? n).

Definition lower_char (c : ascii) : ascii :=
  let n := nat_of_ascii c in
  if ((65 <=? n) && (n <=? 90)) || ((192 <=? n) && (n <=? 214))
     || ((216 <=? n) && (n <=? 222))
  then chr (n + 32) else c.

(** [s.lower()] *)
Fixpoint lower (s : string) : string :=
  match s with
  | EmptyString => EmptyString
  | String c r => String (lower_char c) (lower r)
  end.

(** [s.startswith(p)] *)
Definition startswith (s p : string) : bool := String.prefix p s.

(** [sub in s] *)
Fixpoint contains (sub s : string) : bool :=
  String.prefix sub s
  || match s with
     | EmptyString => false
     | String _ r => contains sub r
     end.

(** [s.lstrip()] *)
Fixpoint lstrip (s : string) : string :=
  match s with
  | EmptyString => EmptyString
  | String c r => if isspace c then lstrip r else s
  end.

(** [s.rstrip()] *)
Fixpoint rstrip (s : string) : string :=
  match s with
  | EmptyString => EmptyString
  | String c r =>
      match rstrip r with
      | EmptyString => if isspace c then EmptyString else String c EmptyString
      | r' => String c r'
      end
  end.

(** [s.strip()] *)
Definition strip (s : string) : string := rstrip (lstrip s).

(** [s.lstrip(c)] for a one-character argument. *)
Fixpoint lstrip_char (c0 : ascii) (s : string) : string :=
  match s with
  | EmptyString => EmptyString
  | String c r => if Ascii.eqb c c0 then lstrip_char c0 r else s
  end.

(** [s.split(sep)] for a one-character separator. *)
Fixpoint split (sep : ascii) (s : string) : list string :=
  match s with
  | EmptyString => [EmptyString]
  | String c r =>
      if Ascii.eqb c sep then EmptyString :: split sep r
      else match split sep r with
           | h :: t => String c h :: t
           | [] => [String c EmptyString]
           end
  end.

(** [s.split(sep)[0]] *)
Fixpoint before (sep : ascii) (s : string) : string :=
  match s with
  | EmptyString => EmptyString
  | String c r => if Ascii.eqb c sep then EmptyString else String c (before sep r)
  end.

(** [s.count(sub)] for a non-empty [sub]: occurrences are counted from the
    left and do not overlap; [skip] is the number of characters of the last
    occurrence still to pass. *)
Fixpoint count_from (sub : string) (skip : nat) (s : string) : nat :=
  match s with
  | EmptyString => 0
  | String _ r =>
      match skip with
      | S k => count_from sub k r
      | O =>
          if String.prefix sub s
          then S (count_from sub (String.length sub - 1) r)
          else count_from sub 0 r
      end
  end.

Definition count (s sub : string) : nat := count_from sub 0 s.

(** [sep.join(l)] *)
Definition join (sep : string) (l : list string) : string := String.concat sep l.

(** [len(s)] *)
Definition len (s : string) : nat := String.length s.

(** [str(n)] for a non-negative [int]. *)
Definition of_nat (n : nat) : string := NilEmpty.string_of_uint (Nat.to_uint n).

(** The longest prefix of characters in a class, and the rest. *)
Fixpoint span (p : ascii -> bool) (s : string) : string * string :=
  match s with
  | EmptyString => (EmptyString, EmptyString)
  | String c r =>
      if p c then let '(a, b) := span p r in (String c a, b)
      else (EmptyString, s)
  end.

(** [s] without the prefix [p], when it has it. *)
Fixpoint strip_prefix (p s : string) : option string :=
  match p, s with
  | EmptyString, _ => Some s
  | String a p', String b s' => if Ascii.eqb a b then strip_prefix p' s' else None
  | String _ _, EmptyString => None
  end.

(** The same, comparing letters without their case ([re.IGNORECASE] for a
    lower-case ASCII pattern). *)
Fixpoint strip_prefix_ci (p s : string) : option string :=
  match p, s with
  | EmptyString, _ => Some s
  | String a p', String b s' =>
      if Ascii.eqb a (lower_char b) then strip_prefix_ci p' s' else None
  | String _ _, EmptyString => None
  end.

(** The text before the first occurrence of [sub], when there is one. *)
Fixpoint until (sub s : string) : option string :=
  if String.prefix sub s then Some EmptyString
  else match s with
       | EmptyString => None
       | String c r => option_map (String c) (until sub r)
       end.

Definition is_empty (s : string) : bool :=
  match s with EmptyString => true | _ => false end.

End Str.

(** ** The regular expressions of the tool

    Each pattern is written as a matcher anchored at the head of its input,
    which returns the groups [re.findall] reports and the length of the
    match; [findall] scans with it as [re.findall] does.  In every pattern
    below a greedy class is followed by a character outside the class, so the
    backtracking matcher of [re] and the matcher here agree. *)

Module Re.
Import Str.

(** [re.findall]: leftmost matches that do not overlap.  Every pattern of
    the tool matches at least one character; [skip] counts the characters
    of the last match still to pass. *)
Fixpoint findall_from {G : Type} (m : string -> option (G * nat))
    (skip : nat) (s : string) : list G :=
  match s with
  | EmptyString => []
  | String _ r =>
      match skip with
      | S k => findall_from m k r
      | O =>
          match m s with
          | Some (g, n) => g :: findall_from m (n - 1) r
          | None => findall_from m 0 r
          end
      end
  end.

Definition findall {G : Type} (m : string -> option (G * nat)) (s : string)
    : list G :=
  findall_from m 0 s.

Definition not_char (c0 c : ascii) : bool := negb (Ascii.eqb c c0).

(** The opening of a link up to its parenthesis: [\[([^\]]+)\]\(] *)
Definition link_head (s : string) : option (string * string) :=
  match s with
  | String "[" r =>
      let '(text, r1) := span (not_char "]") r in
      if is_empty text then None
      else match r1 with
           | String "]" (String "(" r2) => Some (text, r2)
           | _ => None
           end
  | _ => None
  end.

(** [\[([^\]]+)\]\(([^\)]+)\)] *)
Definition link (s : string) : option ((string * string) * nat) :=
  match link_head s with
  | Some (text, r2) =>
      let '(url, r3) := span (not_char ")") r2 in
      if is_empty url then None
      else match r3 with
           | String ")" _ => Some ((text, url), len text + len url + 4)
           | _ => None
           end
  | None => None
  end.

(** [\[([^\]]+)\]\(\s*\)] *)
Definition empty_link (s : string) : option (string * nat) :=
  match link_head s with
  | Some (text, r2) =>
      let '(ws, r3) := span isspace r2 in
      match r3 with
      | String ")" _ => Some (text, len text + len ws + 4)
      | _ => None
      end
  | None => None
  end.

(** [\[([^\]]+)\]\((https?://[^\)]+)\)] *)
Definition external_link (s : string) : option ((string * string) * nat) :=
  match link_head s with
  | Some (text, r2) =>
      match strip_prefix "http" r2 with
      | Some r3 =>
          let '(scheme, r4) :=
            match r3 with
            | String "s" r' => ("https", r')
            | _ => ("http", r3)
            end in
          match strip_prefix "://" r4 with
          | Some r5 =>
              let '(rest, r6) := span (not_char ")") r5 in
              if is_empty rest then None
              else match r6 with
                   | String ")" _ =>
                       let url := scheme +:+ "://" +:+ rest in
                       Some ((text, url), len text + len url + 4)
                   | _ => None
                   end
          | None => None
          end
      | None => None
      end
  | None => None
  end.

(** [```(\w+)\n(.*?)```] with [re.DOTALL] *)
Definition code_block (s : string) : option ((string * string) * nat) :=
  match strip_prefix "```" s with
  | Some r =>
      let '(lang, r1) := span isword r in
      if is_empty lang then None
      else match r1 with
           | String c r2 =>
               if Ascii.eqb c (chr 10) then
                 match until "```" r2 with
                 | Some body => Some ((lang, body), len lang + len body + 7)
                 | None => None
                 end
               else None
           | EmptyString => None
           end
  | None => None
  end.

(** [TODO|FIXME|XXX] *)
Definition todo (s : string) : option (string * nat) :=
  if String.prefix "TODO" s then Some ("TODO", 4)
  else if String.prefix "FIXME" s then Some ("FIXME", 5)
  else if String.prefix "XXX" s then Some ("XXX", 3)
  else None.

(** [\bW\s+W\b] with [re.IGNORECASE], anchored, for a lower-case ASCII word
    [W]; the boundary before the match is checked by [search_dup]. *)
Definition dup_here (w s : string) : bool :=
  match strip_prefix_ci w s with
  | Some r1 =>
      let '(ws, r2) := span isspace r1 in
      negb (is_empty ws)
      && match strip_prefix_ci w r2 with
         | Some EmptyString => true
         | Some (String c _) => negb (isword c)
         | None => false
         end
  | None => false
  end.

(** [re.search(r'\bW\s+W\b', s, re.IGNORECASE)] as a truth value;
    [prev_word] tells whether the character before [s] is a word
    character. *)
Fixpoint search_dup_from (w : string) (prev_word : bool) (s : string) : bool :=
  match s with
  | EmptyString => false
  | String c r =>
      (negb prev_word && dup_here w s) || search_dup_from w (isword c) r
  end.

Definition search_dup (w s : string) : bool := search_dup_from w false s.

End Re.

(** ** Exceptions, the file system and the platform *)

(** The exceptions the tool can meet.  [TimeoutExpired], [RequestException]
    and [Exception] (any other subclass, [OSError] included) are caught by
    [except Exception]; [KeyboardInterrupt] only by a bare [except]. *)
Inductive exn : Type :=
| TimeoutExpired (msg : string)
| RequestException (msg : string)
| Exception (msg : string)
| KeyboardInterrupt.

(** [str(e)] *)
Definition exn_str (e : exn) : string :=
  match e with
  | TimeoutExpired m | RequestException m | Exception m => m
  | KeyboardInterrupt => EmptyString
  end.

Inductive result (A : Type) : Type :=
| Ok (a : A)
| Raise (e : exn).
Arguments Ok {A} a.
Arguments Raise {A} e.

(** A path is the text [str(path)] gives. *)
Inductive node : Type :=
| File (content : string)
| Dir.

(** What [subprocess.run] returns with [capture_output=True, text=True]. *)
Record CompletedProcess : Type := mkCompleted {
  returncode : Z;
  stdout : string;
  stderr : string
}.

(** The part of the machine the tool acts on: the paths that exist, and the
    command lines that were handed to [subprocess.run], oldest first. *)
Record World : Type := mkWorld {
  fs : gmap string node;
  spawned : list (list string)
}.

(** The library calls whose answers depend on the machine. *)
Class Platform : Type := {
  (** [Path(s)] *)
  Path_ : string -> string;
  (** [p / s] *)
  joinpath : string -> string -> string;
  (** [p.parent] *)
  parent : string -> string;
  (** [p.resolve()]: the resolved path, or the exception it raises (an
      embedded null byte, a loop of symbolic links) *)
  resolve : gmap string node -> string -> result string;
  (** the error of [os.stat] on a path that [p.exists()] does not take for
      "no such file" and raises again (a name that is too long, a
      permission that is missing), if there is one *)
  stat_error : gmap string node -> string -> option exn;
  (** [list(p.glob("**/*.md"))], in the order the system lists them *)
  glob_md : gmap string node -> string -> list string;
  (** the name [tempfile.NamedTemporaryFile] picks for a suffix, if it can
      create a file *)
  mktemp : gmap string node -> string -> option string;
  (** what a child process started with a command line and a timeout in
      seconds does: its outcome and the file system it leaves *)
  execute : list string -> nat -> gmap string node
            -> result CompletedProcess * gmap string node;
  (** whether [import requests] succeeds *)
  requests_installed : bool;
  (** [requests.head(url, timeout=5, allow_redirects=True).status_code] *)
  requests_head : string -> result nat
}.

(** ** The tester's state *)

Module Stats.
(** The dictionary [self.stats]; its five keys never change. *)
Record t : Type := mk {
  files_checked : nat;
  links_checked : nat;
  code_blocks_tested : nat;
  errors : nat;
  warnings : nat
}.

Definition init : t := mk 0 0 0 0 0.

(** [stats[key] += 1], one function per key. *)
Definition incr_files_checked (a : t) : t :=
  mk (files_checked a + 1) (links_checked a) (code_blocks_tested a)
     (errors a) (warnings a).
Definition incr_links_checked (a : t) : t :=
  mk (files_checked a) (links_checked a + 1) (code_blocks_tested a)
     (errors a) (warnings a).
Definition incr_code_blocks_tested (a : t) : t :=
  mk (files_checked a) (links_checked a) (code_blocks_tested a + 1)
     (errors a) (warnings a).
Definition incr_errors (a : t) : t :=
  mk (files_checked a) (links_checked a) (code_blocks_tested a)
     (errors a + 1) (warnings a).
Definition incr_warnings (a : t) : t :=
  mk (files_checked a) (links_checked a) (code_blocks_tested a)
     (errors a) (warnings a + 1).

(** Every counter of [a] is at most its value in [b]. *)
Definition le (a b : t) : Prop :=
  files_checked a <= files_checked b
  /\ links_checked a <= links_checked b
  /\ code_blocks_tested a <= code_blocks_tested b
  /\ errors a <= errors b
  /\ warnings a <= warnings b.
End Stats.

(** A finding: the document and the message. *)
Definition Finding : Type := string * string.

Record DocumentationTester : Type := mkTester {
  docs_path : string;
  errors : list Finding;
  warnings : list Finding;
  stats : Stats.t
}.

Record State : Type := mkState {
  self : DocumentationTester;
  os : World
}.

(** ** Statements: state passing with exceptions *)

Definition M (A : Type) : Type := State -> result A * State.

Global Instance M_ret : MRet M := fun A a s => (Ok a, s).

Global Instance M_bind : MBind M := fun A B f m s =>
  match m s with
  | (Ok a, s') => f a s'
  | (Raise e, s') => (Raise e, s')
  end.

Definition raise {A : Type} (e : exn) : M A := fun s => (Raise e, s).

Definition gets {A : Type} (f : State -> A) : M A := fun s => (Ok (f s), s).

Definition modify (f : State -> State) : M unit := fun s => (Ok tt, f s).

(** [try: body except ...: handler]; [handler e] is [None] when no clause
    catches [e]. *)
Definition try_except {A : Type} (body : M A) (handler : exn -> option (M A))
    : M A := fun s =>
  match body s with
  | (Ok a, s') => (Ok a, s')
  | (Raise e, s') =>
      match handler e with
      | Some h => h s'
      | None => (Raise e, s')
      end
  end.

(** [try: body finally: fin]: [fin] runs on every path; an exception of its
    own replaces the outcome of [body]. *)
Definition try_finally {A : Type} (body : M A) (fin : M unit) : M A := fun s =>
  let '(r, s') := body s in
  match fin s' with
  | (Ok _, s'') => (r, s'')
  | (Raise e, s'') => (Raise e, s'')
  end.

(** [for x in l: body x] *)
Fixpoint for_each {X : Type} (l : list X) (body : X -> M unit) : M unit :=
  match l with
  | [] => mret tt
  | x :: r => body x ;; for_each r body
  end.

(** A loop that updates a local variable. *)
Fixpoint for_fold {X V : Type} (l : list X) (v : V) (body : V -> X -> M V)
    : M V :=
  match l with
  | [] => mret v
  | x :: r => v' ← body v x; for_fold r v' body
  end.

(** [enumerate(l, start)] *)
Fixpoint enumerate {X : Type} (start : nat) (l : list X) : list (nat * X) :=
  match l with
  | [] => []
  | x :: r => (start, x) :: enumerate (S start) r
  end.

(** [when c m]: [if c: m] *)
Definition when (c : bool) (m : M unit) : M unit := if c then m else mret tt.

(** [s in l] for a list of strings. *)
Definition in_list (s : string) (l : list string) : bool :=
  existsb (String.eqb s) l.

Definition is_nil {X : Type} (l : list X) : bool :=
  match l with [] => true | _ => false end.

(** ** The tool *)

Section Tool.
Context {platform : Platform}.
Import Str.

(** *** Library calls acting on the world *)

(** Whether the path [p] is there: [p.exists()] on a path the system can
    examine. *)
Definition path_exists (w : World) (p : string) : bool :=
  match fs w !! p with
  | Some _ => true
  | None => false
  end.

(** [p.resolve()] as a statement. *)
Definition resolve_path (p : string) : M string := fun s =>
  (resolve (fs (os s)) p, s).

(** [p.exists()] as a statement: it raises the error of [os.stat] unless
    the error says that the path is not there. *)
Definition exists_ (p : string) : M bool := fun s =>
  match stat_error (fs (os s)) p with
  | Some e => (Raise e, s)
  | None => (Ok (path_exists (os s) p), s)
  end.

(** [p.read_text()] *)
Definition read_text (p : string) : M string := fun s =>
  match fs (os s) !! p with
  | Some (File c) => (Ok c, s)
  | Some Dir => (Raise (Exception "IsADirectoryError"), s)
  | None => (Raise (Exception "FileNotFoundError"), s)
  end.

(** [with tempfile.NamedTemporaryFile(mode='w', suffix=..., delete=False)
    as f: f.write(code); temp_file = f.name] *)
Definition NamedTemporaryFile (suffix code : string) : M string := fun s =>
  match mktemp (fs (os s)) suffix with
  | Some name =>
      (Ok name,
       mkState (self s)
         (mkWorld (<[name := File code]> (fs (os s))) (spawned (os s))))
  | None => (Raise (Exception "FileNotFoundError"), s)
  end.

(** [subprocess.run(argv, capture_output=True, ..., timeout=t)] *)
Definition subprocess_run (argv : list string) (timeout : nat)
    : M CompletedProcess := fun s =>
  let '(r, fs') := execute argv timeout (fs (os s)) in
  (r, mkState (self s) (mkWorld fs' (spawned (os s) ++ [argv]))).

(** [Path(p).unlink(missing_ok=True)] *)
Definition unlink (p : string) : M unit := fun s =>
  match fs (os s) !! p with
  | Some Dir => (Raise (Exception "IsADirectoryError"), s)
  | _ =>
      (Ok tt,
       mkState (self s) (mkWorld (delete p (fs (os s))) (spawned (os s))))
  end.

(** *** [DocumentationTester] *)

(** [__init__], called with a path: [Path(p)] of a path [p] is [p]. *)
Definition init (docs_path : string) : DocumentationTester :=
  mkTester docs_path [] [] Stats.init.

Definition set_stats (f : Stats.t -> Stats.t) : M unit :=
  modify (fun s =>
    mkState
      (mkTester (docs_path (self s)) (errors (self s)) (warnings (self s))
         (f (stats (self s))))
      (os s)).

Definition _add_error (filepath message : string) : M unit :=
  modify (fun s =>
    mkState
      (mkTester (docs_path (self s))
         (errors (self s) ++ [(filepath, message)])
         (warnings (self s))
         (Stats.incr_errors (stats (self s))))
      (os s)).

Definition _add_warning (filepath message : string) : M unit :=
  modify (fun s =>
    mkState
      (mkTester (docs_path (self s))
         (errors (self s))
         (warnings (self s) ++ [(filepath, message)])
         (Stats.incr_warnings (stats (self s))))
      (os s)).

(** The condition of the generator at line 80. *)
Definition is_h1 (line : string) : bool :=
  startswith (strip line) "# " && negb (startswith (strip line) "##").

Definition heading_step (filepath : string) (prev_level : nat)
    (il : nat * string) : M nat :=
  let '(i, line) := il in
  if startswith (strip line) "#" then
    let level := len line - len (lstrip_char "#" line) in
    when ((prev_level + 1 <? level) && (0 <? prev_level))
      (_add_warning filepath
         ("Line " +:+ of_nat i +:+ ": Skipped heading level (went from H"
          +:+ of_nat prev_level +:+ " to H" +:+ of_nat level +:+ ")")) ;;
    mret level
  else mret prev_level.

Definition _check_markdown_syntax (filepath content : string) : M unit :=
  let lines := split (chr 10) content in
  (* Check for multiple H1 headers *)
  let h1_count := length (List.filter is_h1 lines) in
  when (1 <? h1_count)
    (_add_warning filepath
       "Multiple H1 headers found (should have only one)") ;;
  (* Check for empty links *)
  let empty_links := Re.findall Re.empty_link content in
  when (negb (is_nil empty_links))
    (_add_error filepath
       ("Empty links found: " +:+ join ", " empty_links)) ;;
  (* Check for unclosed code blocks *)
  let code_block_count := count content "```" in
  when (negb (code_block_count mod 2 =? 0))
    (_add_error filepath "Unclosed code block (odd number of ```)") ;;
  (* Check for heading hierarchy *)
  for_fold (enumerate 1 lines) 0 (heading_step filepath) ;;
  mret tt.

Definition link_step (filepath : string) (fix_ : bool)
    (link : string * string) : M unit :=
  let '(link_text, link_url) := link in
  set_stats Stats.incr_links_checked ;;
  (* Skip anchors and external URLs *)
  if startswith link_url "#" then mret tt
  else if startswith link_url "http://" || startswith link_url "https://"
  then mret tt
  else if startswith link_url "mailto:" then mret tt
  else
    root ← gets (fun s => docs_path (self s));
    (* Check relative file links *)
    link_path ←
      (if negb (startswith link_url "/")
       then resolve_path (joinpath (parent filepath) link_url)
       else resolve_path (joinpath root (lstrip_char "/" link_url)));
    (* Remove anchor if present *)
    let link_path :=
      if contains "#" link_path then Path_ (before "#" link_path)
      else link_path in
    present ← exists_ link_path;
    when (negb present)
      (_add_error filepath
         ("Broken link: " +:+ link_url +:+ " -> " +:+ link_path)).

Definition _check_links (filepath content : string) (fix_ : bool) : M unit :=
  let links := Re.findall Re.link content in
  for_each links (link_step filepath fix_).

Definition long_line_step (filepath : string) (in_code_block : bool)
    (il : nat * string) : M bool :=
  let '(i, line) := il in
  if startswith (strip line) "```" then mret (negb in_code_block)
  else
    when (negb in_code_block && (120 <? len line))
      (_add_warning filepath
         ("Line " +:+ of_nat i +:+ ": Very long line ("
          +:+ of_nat (len line) +:+ " chars)")) ;;
    mret in_code_block.

(** The dictionary [common_typos], in insertion order: the doubled word of
    each pattern and the description. *)
Definition common_typos : list (string * string) :=
  [ ("the", "duplicate " +:+ dq +:+ "the" +:+ dq);
    ("of", "duplicate " +:+ dq +:+ "of" +:+ dq);
    ("is", "duplicate " +:+ dq +:+ "is" +:+ dq) ].

Definition _check_common_issues (filepath content : string) : M unit :=
  (* Check for TODO/FIXME comments *)
  let todos := Re.findall Re.todo content in
  when (negb (is_nil todos))
    (_add_warning filepath
       ("Found " +:+ of_nat (length todos) +:+ " TODO/FIXME markers")) ;;
  (* Check for very long lines (except in code blocks) *)
  let lines := split (chr 10) content in
  for_fold (enumerate 1 lines) false (long_line_step filepath) ;;
  (* Check for common typos *)
  for_each common_typos (fun '(pattern, description) =>
    when (Re.search_dup pattern content)
      (_add_warning filepath ("Possible typo: " +:+ description))).

Definition _test_python_code (filepath code : string) : M unit :=
  (* Skip examples with placeholders *)
  if contains "YOUR_API_KEY" code || contains "your-" (lower code)
     || contains "example.com" code
  then mret tt
  else
    (* Create temporary file *)
    temp_file ← NamedTemporaryFile ".py" code;
    try_finally
      (try_except
         (result ← subprocess_run ["python"; "-m"; "py_compile"; temp_file] 5;
          when (negb (returncode result =? 0)%Z)
            (_add_error filepath
               ("Python code syntax error:" +:+ nl +:+ stderr result)))
         (fun e =>
            match e with
            | TimeoutExpired _ =>
                Some (_add_warning filepath "Python code test timed out")
            | KeyboardInterrupt => None
            | _ =>
                Some (_add_warning filepath
                        ("Could not test Python code: " +:+ exn_str e))
            end))
      (unlink temp_file).

Definition _test_javascript_code (filepath code : string) : M unit :=
  (* Skip examples with placeholders *)
  if contains "YOUR_API_KEY" code || contains "your-" (lower code)
     || contains "example.com" code
  then mret tt
  else
    (* Check if node is available *)
    node ← try_except
              (subprocess_run ["node"; "--version"] 2 ;; mret true)
              (fun _ => Some (mret false));
    if negb node then mret tt
    else
      (* Create temporary file *)
      temp_file ← NamedTemporaryFile ".js" code;
      try_finally
        (try_except
           (result ← subprocess_run ["node"; "--check"; temp_file] 5;
            when (negb (returncode result =? 0)%Z)
              (_add_error filepath
                 ("JavaScript code syntax error:" +:+ nl +:+ stderr result)))
           (fun e =>
              match e with
              | TimeoutExpired _ =>
                  Some (_add_warning filepath "JavaScript code test timed out")
              | KeyboardInterrupt => None
              | _ =>
                  Some (_add_warning filepath
                          ("Could not test JavaScript code: " +:+ exn_str e))
              end))
        (unlink temp_file).

Definition _test_bash_code (filepath code : string) : M unit :=
  (* Skip examples with placeholders or dangerous commands *)
  let dangerous := ["rm -rf"; "dd if="; "mkfs"; ":(){:|:&};:"] in
  if existsb (fun cmd => contains cmd code) dangerous then mret tt
  else if contains "YOUR_" code || contains "your-" (lower code) then mret tt
  else
    (* Just check for basic syntax issues *)
    let lines := split (chr 10) code in
    for_each (enumerate 1 lines) (fun '(i, line) =>
      let line := strip line in
      if is_empty line || startswith line "#" then mret tt
      else
        (* Check for unmatched quotes *)
        when (negb (count line dq mod 2 =? 0)
              || negb (count line "'" mod 2 =? 0))
          (_add_warning filepath
             ("Bash code may have unmatched quotes: " +:+ line))).

(** The tags [_test_code_examples] passes over. *)
Definition non_executable : list string :=
  ["text"; "markdown"; "json"; "yaml"; "yml"; "output"].

Definition code_block_step (filepath : string) (block : string * string)
    : M unit :=
  let '(lang, code) := block in
  let lang := lower lang in
  (* Skip non-executable code blocks *)
  if in_list lang non_executable then mret tt
  else
    set_stats Stats.incr_code_blocks_tested ;;
    if String.eqb lang "python" then _test_python_code filepath code
    else if in_list lang ["javascript"; "js"]
    then _test_javascript_code filepath code
    else if String.eqb lang "bash" then _test_bash_code filepath code
    else mret tt.

Definition _test_code_examples (filepath content : string) : M unit :=
  (* Extract code blocks *)
  let code_blocks := Re.findall Re.code_block content in
  for_each code_blocks (code_block_step filepath).

Definition md_file_step (execute_examples fix_ : bool) (md_file : string)
    : M unit :=
  if contains "node_modules" md_file || contains ".git" md_file then mret tt
  else
    set_stats Stats.incr_files_checked ;;
    content ← read_text md_file;
    (* Run tests *)
    _check_markdown_syntax md_file content ;;
    _check_links md_file content fix_ ;;
    _check_common_issues md_file content ;;
    when execute_examples (_test_code_examples md_file content).

(** [run_all_tests]; what it prints is left out. *)
Definition run_all_tests (execute_examples fix_ : bool) : M bool :=
  (* Find all markdown files *)
  root ← gets (fun s => docs_path (self s));
  w ← gets os;
  let md_files := glob_md (fs w) root in
  if is_nil md_files then mret false
  else
    for_each md_files (md_file_step execute_examples fix_) ;;
    n ← gets (fun s => Stats.errors (stats (self s)));
    mret (n =? 0).

End Tool.

(** ** [LinkChecker] and [main] *)

Section Main.
Context {platform : Platform}.
Import Str.

(** A broken external link: the document, the URL and the reason. *)
Definition Broken : Type := string * string * string.

(** [requests.head(url, timeout=5, allow_redirects=True).status_code] as a
    statement. *)
Definition head_status_code (url : string) : M nat := fun s =>
  (requests_head url, s).

Definition external_link_step (md_file : string) (broken_links : list Broken)
    (link : string * string) : M (list Broken) :=
  let '(link_text, url) := link in
  try_except
    (status_code ← head_status_code url;
     if 400 <=? status_code
     then mret (broken_links
                ++ [(md_file, url, "HTTP " +:+ of_nat status_code)])
     else mret broken_links)
    (fun e =>
       match e with
       | RequestException _ =>
           Some (mret (broken_links ++ [(md_file, url, exn_str e)]))
       | _ => None
       end).

(** [LinkChecker.check_external_links] *)
Definition check_external_links (docs_path : string) : M (list Broken) :=
  if negb requests_installed then mret ([] : list Broken)
  else
    w ← gets os;
    let md_files := glob_md (fs w) docs_path in
    for_fold md_files [] (fun broken_links md_file =>
      if contains "node_modules" md_file then mret broken_links
      else
        content ← read_text md_file;
        let links := Re.findall Re.external_link content in
        for_fold links broken_links (external_link_step md_file)).

(** The parsed command line. *)
Record Args : Type := mkArgs {
  path : string;
  execute_examples : bool;
  check_links : bool;
  fix_ : bool;
  all : bool
}.

(** How the process ends: [sys.exit(code)], or an exception nobody
    caught. *)
Inductive termination : Type :=
| Exit (code : Z)
| Traceback (e : exn).

(** [main] from the creation of the tester on: the argument handed to
    [sys.exit]. *)
Definition main_body (args : Args) (docs_path : string) : M Z :=
  let execute_examples := if all args then true else execute_examples args in
  let check_links := if all args then true else check_links args in
  success ← run_all_tests execute_examples (fix_ args);
  (* Check external links if requested *)
  success ←
    (if check_links then
       broken ← check_external_links docs_path;
       if negb (is_nil broken) then mret false else mret success
     else mret (success : bool));
  mret (if (success : bool) then 0%Z else 1%Z).

(** [main]: how the process ends, the tester if one was created, and the
    world it leaves. *)
Definition main (args : Args) (w : World)
    : termination * option DocumentationTester * World :=
  (* Validate path *)
  let docs_path := Path_ (path args) in
  if negb (path_exists w docs_path) then (Exit 1, None, w)
  else
    let tester := init docs_path in
    match main_body args docs_path (mkState tester w) with
    | (Ok code, s) => (Exit code, Some (self s), os s)
    | (Raise e, s) => (Traceback e, Some (self s), os s)
    end.

End Main.

(** ** A small platform to run the tool on

    Paths are normalised by their text alone (no symbolic links, working
    directory [/]); the child process is a toy checker that reads the file
    named last on its command line. *)

Module Demo.
Import Str.

(** The components of a path that count: no empty one, no [.]. *)
Definition components (p : string) : list string :=
  List.filter (fun c => negb (is_empty c || String.eqb c "."))
    (split "/" p).

Definition path_of (s : string) : string :=
  if startswith s "/" then "/" +:+ join "/" (components s)
  else match components s with
       | [] => "."
       | l => join "/" l
       end.

Definition join_to (p s : string) : string :=
  if startswith s "/" then path_of s else path_of (p +:+ "/" +:+ s).

Definition parent_of (p : string) : string :=
  if startswith p "/" then "/" +:+ join "/" (removelast (components p))
  else match removelast (components p) with
       | [] => "."
       | l => join "/" l
       end.

(** [..] steps back, as for a tree without symbolic links. *)
Fixpoint walk (stack comps : list string) : list string :=
  match comps with
  | [] => stack
  | c :: r =>
      if String.eqb c ".." then walk (removelast stack) r
      else walk (stack ++ [c]) r
  end.

(** A path with a null byte cannot be resolved. *)
Definition resolve_text (_ : gmap string node) (p : string) : result string :=
  if contains (String (chr 0) EmptyString) p
  then Raise (Exception "ValueError: embedded null byte")
  else Ok ("/" +:+ join "/" (walk [] (components p))).

(** A path with a component of more than 255 characters cannot be
    examined. *)
Definition refused (_ : gmap string node) (p : string) : option exn :=
  if existsb (fun c => 255 <? len c) (split "/" p)
  then Some (Exception "OSError: [Errno 36] File name too long")
  else None.

(** A name of 256 characters. *)
Definition long_name : string := join "" (List.repeat "a" 256).

Definition endswith (s suffix : string) : bool :=
  String.prefix (String.rev suffix) (String.rev s).

Definition glob (files : gmap string node) (root : string) : list string :=
  List.filter
    (fun p => startswith p (root +:+ "/") && endswith p ".md")
    (map fst (map_to_list files)).

Definition temp_name (files : gmap string node) (suffix : string)
    : option string :=
  let name := "/tmp/tmpdoc0" +:+ suffix in
  match files !! name with
  | Some _ => None
  | None => Some name
  end.

(** The toy checker: a text with unbalanced parentheses is a syntax error,
    one that contains [sleep] runs out of time, one that contains
    [interrupt] is interrupted from the keyboard. *)
Definition checker (argv : list string) (timeout : nat)
    (files : gmap string node)
    : result CompletedProcess * gmap string node :=
  match files !! List.last argv EmptyString with
  | Some (File code) =>
      if contains "sleep" code
      then (Raise (TimeoutExpired "timed out after 5 seconds"), files)
      else if contains "interrupt" code
      then (Raise KeyboardInterrupt, files)
      else if count code "(" =? count code ")"
      then (Ok (mkCompleted 0 EmptyString EmptyString), files)
      else (Ok (mkCompleted 1 EmptyString "SyntaxError: invalid syntax"),
            files)
  | _ => (Ok (mkCompleted 0 "v20.11.0" EmptyString), files)
  end.

Definition head_status (url : string) : result nat :=
  if contains "unreachable" url
  then Raise (RequestException "connection refused")
  else if contains "gone" url then Ok 404
  else Ok 200.

Definition platform : Platform :=
  {| Path_ := path_of;
     joinpath := join_to;
     parent := parent_of;
     resolve := resolve_text;
     stat_error := refused;
     glob_md := glob;
     mktemp := temp_name;
     execute := checker;
     requests_installed := true;
     requests_head := head_status |}.

(** A world with the directories [/docs] and [/tmp] and the given
    documents. *)
Definition world (docs : list (string * string)) : World :=
  mkWorld
    (<["/docs" := Dir]>
       (<["/tmp" := Dir]>
          (list_to_map (map (fun d => (fst d, File (snd d))) docs))))
    [].

(** A tester on [/docs] before its run. *)
Definition start (docs : list (string * string)) : State :=
  mkState (init "/docs") (world docs).

Definition lines (l : list string) : string := join nl l.

End Demo.

(** * The vocabulary of the properties *)

Section Vocabulary.
Context {platform : Platform}.
Import Str.

(** A statement that keeps the relation [R] between the tester before it
    and the tester after it, whether it returns or raises. *)
Definition steady (R : DocumentationTester -> DocumentationTester -> Prop)
    {A : Type} (m : M A) : Prop :=
  forall s, R (self s) (self (m s).2).

(** Every counter of the tester [a] is at most its value in [b]. *)
Definition stats_le (a b : DocumentationTester) : Prop :=
  Stats.le (stats a) (stats b).

(** A statement that leaves the whole state as it found it. *)
Definition unchanged {A : Type} (m : M A) : Prop := forall s, (m s).2 = s.

(** The test both checkers start with. *)
Definition has_placeholder (code : string) : bool :=
  Str.contains "YOUR_API_KEY" code || Str.contains "your-" (Str.lower code)
  || Str.contains "example.com" code.

(** The counter [code_blocks_tested] of a state. *)
Definition tested (s : State) : nat := Stats.code_blocks_tested (stats (self s)).

(** A block whose tag, in lower case, is not in the non-executable list. *)
Definition eligible (block : string * string) : bool :=
  negb (in_list (Str.lower block.1) non_executable).

(** The testers [a] and [b] have counted the same number of blocks. *)
Definition same_tested (a b : DocumentationTester) : Prop :=
  Stats.code_blocks_tested (stats a) = Stats.code_blocks_tested (stats b).

(** The errors and the warnings a statement appended, given the state before
    and the state after it. *)
Definition new_errors (s s' : State) : list Finding :=
  drop (length (errors (self s))) (errors (self s')).

Definition new_warnings (s s' : State) : list Finding :=
  drop (length (warnings (self s))) (warnings (self s')).

(** The findings of a list that carry a given message. *)
Definition with_message (message : string) (l : list Finding) : list Finding :=
  List.filter (fun f => String.eqb f.2 message) l.

(** The tester [b] holds the findings of [a] and, after them, errors that
    satisfy [PE] and warnings that satisfy [PW]. *)
Definition adds (PE PW : Finding -> Prop) (a b : DocumentationTester) : Prop :=
  exists e w,
    errors b = errors a ++ e /\ warnings b = warnings a ++ w
    /\ Forall PE e /\ Forall PW w.

(** The messages of the two findings the claims are about. *)
Definition h1_message : string :=
  "Multiple H1 headers found (should have only one)".

Definition fence_message : string :=
  "Unclosed code block (odd number of ```)".

(** The messages of the heading-hierarchy check start with the line. *)
Definition line_message (f : Finding) : Prop :=
  Str.startswith f.2 "Line " = true.

(** A link that is no anchor, no external link and no mail address. *)
Definition is_local (target : string) : bool :=
  negb (startswith target "#")
  && negb (startswith target "http://" || startswith target "https://")
  && negb (startswith target "mailto:").

(** A path without its anchor fragment: the text before the first [#], read
    as a path again. *)
Definition strip_anchor (p : string) : string :=
  if contains "#" p then Path_ (before "#" p) else p.

(** The path whose existence decides on a local link: a target that starts
    with [/] is resolved against the root, without its leading separators;
    another target is resolved against the directory of the document; the
    anchor is taken off the resolved path. *)
Definition checked_path (files : gmap string node) (root filepath target : string)
    : result string :=
  match (if startswith target "/"
         then resolve files (joinpath root (lstrip_char "/" target))
         else resolve files (joinpath (parent filepath) target)) with
  | Ok p => Ok (strip_anchor p)
  | Raise e => Raise e
  end.

(** The check of a local link: the exception of [resolve] or of [exists],
    or else the errors to append, none when the checked path is there. *)
Definition link_check (w : World) (root filepath target : string)
    : result (list Finding) :=
  match checked_path (fs w) root filepath target with
  | Ok p =>
      match stat_error (fs w) p with
      | Some e => Raise e
      | None =>
          Ok (if path_exists w p then []
              else [(filepath, "Broken link: " +:+ target +:+ " -> " +:+ p)])
      end
  | Raise e => Raise e
  end.

(** The error of a local link whose check returns. *)
Definition broken_link (w : World) (root filepath target : string)
    : list Finding :=
  match link_check w root filepath target with
  | Ok e => e
  | Raise _ => []
  end.

(** The state after one link was counted and the given errors appended. *)
Definition after_link (s : State) (e : list Finding) : State :=
  mkState
    (mkTester (docs_path (self s)) (errors (self s) ++ e) (warnings (self s))
       (Stats.mk (Stats.files_checked (stats (self s)))
          (Stats.links_checked (stats (self s)) + 1)
          (Stats.code_blocks_tested (stats (self s)))
          (Stats.errors (stats (self s)) + length e)
          (Stats.warnings (stats (self s)))))
    (os s).

(** The errors of the links of a document, in the order of the links. *)
Definition broken_links (w : World) (root filepath : string)
    (links : list (string * string)) : list Finding :=
  flat_map
    (fun link => if is_local link.2 then broken_link w root filepath link.2
                 else [])
    links.

(** The part the two checkers share, from the [try] on: the command line
    [argv], the three texts of the messages and the temporary file. *)
Definition checked_run (argv : list string) (filepath : string)
    (error_text timeout_text failure_text temp_file : string) : M unit :=
  try_finally
    (try_except
       (result ← subprocess_run argv 5;
        when (negb (returncode result =? 0)%Z)
          (_add_error filepath (error_text +:+ Str.nl +:+ stderr result)))
       (fun e =>
          match e with
          | TimeoutExpired _ => Some (_add_warning filepath timeout_text)
          | KeyboardInterrupt => None
          | _ => Some (_add_warning filepath (failure_text +:+ exn_str e))
          end))
    (unlink temp_file).

(** The findings the check appends for an outcome of the subprocess: the
    errors first, then the warnings. *)
Definition check_findings (filepath error_text timeout_text failure_text : string)
    (r : result CompletedProcess) : list Finding * list Finding :=
  match r with
  | Ok cp =>
      if (returncode cp =? 0)%Z then ([], [])
      else ([(filepath, error_text +:+ Str.nl +:+ stderr cp)], [])
  | Raise (TimeoutExpired _) => ([], [(filepath, timeout_text)])
  | Raise KeyboardInterrupt => ([], [])
  | Raise e => ([], [(filepath, failure_text +:+ exn_str e)])
  end.

(** The tester with findings appended, each counted. *)
Definition with_findings (t : DocumentationTester)
    (ew : list Finding * list Finding) : DocumentationTester :=
  mkTester (docs_path t) (errors t ++ ew.1) (warnings t ++ ew.2)
    (Stats.mk (Stats.files_checked (stats t)) (Stats.links_checked (stats t))
       (Stats.code_blocks_tested (stats t))
       (Stats.errors (stats t) + length ew.1)
       (Stats.warnings (stats t) + length ew.2)).

(** What [unlink] leaves of a file system and what it returns. *)
Definition unlinked (files : gmap string node) (p : string)
    : result unit * gmap string node :=
  match files !! p with
  | Some Dir => (Raise (Exception "IsADirectoryError"), files)
  | _ => (Ok tt, delete p files)
  end.

(** The outcome of the whole block: the exception of [unlink] if it raises,
    else a keyboard interrupt if the subprocess was interrupted, else a
    normal return. *)
Definition checked_result (r : result CompletedProcess) (u : result unit)
    : result unit :=
  match u, r with
  | Raise e, _ => Raise e
  | Ok _, Raise KeyboardInterrupt => Raise KeyboardInterrupt
  | Ok _, _ => Ok tt
  end.

(** [p] is a regular file of the world. *)
Definition is_file (w : World) (p : string) : bool :=
  match fs w !! p with
  | Some (File _) => true
  | _ => false
  end.

End Vocabulary.

(** A statement after which no counter is below its value before, whether
    the statement returns or raises. *)
Abbreviation nondecreasing := (steady stats_le).

(** ** More vocabulary: the state as a whole *)

Section StateVocabulary.
Import Str.

(** A statement that keeps the relation [R] between the state before it and
    the state after it, whether it returns or raises. *)
Definition keeps (R : State -> State -> Prop) {A : Type} (m : M A) : Prop :=
  forall s, R s (m s).2.

(** A statement that never raises. *)
Definition returns {A : Type} (m : M A) : Prop :=
  forall s, exists a, (m s).1 = Ok a.

(** The world of [s'] is the world of [s]: the same paths with the same
    content, and no command line more. *)
Definition same_world (s s' : State) : Prop := os s' = os s.

(** Between [a] and [b] each counter of findings grew by the number of
    findings its list grew by. *)
Definition balanced (a b : DocumentationTester) : Prop :=
  Stats.errors (stats b) + length (errors a)
  = Stats.errors (stats a) + length (errors b)
  /\ Stats.warnings (stats b) + length (warnings a)
     = Stats.warnings (stats a) + length (warnings b).

(** The counters of findings are the lengths of the lists. *)
Definition counted (t : DocumentationTester) : Prop :=
  Stats.errors (stats t) = length (errors t)
  /\ Stats.warnings (stats t) = length (warnings t).

(** The errors of [b] and their counter are those of [a]. *)
Definition same_errors (a b : DocumentationTester) : Prop :=
  errors b = errors a /\ Stats.errors (stats b) = Stats.errors (stats a).

(** The test [run_all_tests] passes over a markdown file with. *)
Definition skipped (md_file : string) : bool :=
  contains "node_modules" md_file || contains ".git" md_file.

(** The testers [a] and [b] have counted the same number of files. *)
Definition same_files_checked (a b : DocumentationTester) : Prop :=
  Stats.files_checked (stats a) = Stats.files_checked (stats b).

(** The three command lines of the tool. *)
Definition allowed_command (argv : list string) : Prop :=
  argv = ["node"; "--version"]
  \/ exists temp_file,
       argv = ["python"; "-m"; "py_compile"; temp_file]
       \/ argv = ["node"; "--check"; temp_file].

(** The command lines handed to [subprocess.run] between [s] and [s'] are
    all among the three. *)
Definition spawns_only (s s' : State) : Prop :=
  exists extra,
    spawned (os s') = spawned (os s) ++ extra /\ Forall allowed_command extra.

(** A heading line that does not itself start with [#]: its level comes out
    as zero. *)
Definition indented_heading (line : string) : Prop :=
  Str.startswith (Str.strip line) "#" = true ->
  Str.startswith line "#" = false.

End StateVocabulary.

(** The demo platform on a network where every request is answered with
    status 200. *)
Definition healthy_platform : Platform :=
  {| Path_ := Demo.path_of;
     joinpath := Demo.join_to;
     parent := Demo.parent_of;
     resolve := Demo.resolve_text;
     stat_error := Demo.refused;
     glob_md := Demo.glob;
     mktemp := Demo.temp_name;
     execute := Demo.checker;
     requests_installed := true;
     requests_head := fun _ => Ok 200 |}.

(** * Properties *)

(** ** Equations of the statements *)

Lemma bind_run {A B : Type} (m : M A) (f : A -> M B) (s : State) :
  (m ≫= f) s =
  match m s with
  | (Ok a, s') => f a s'
  | (Raise e, s') => (Raise e, s')
  end.
Proof. reflexivity. Qed.

(** ** Relations every statement keeps

    [R] relates the tester before a statement to the tester after it.  When
    [R] is a preorder that every primitive update respects, every statement
    built from them respects it, whatever its outcome. *)

Section Steady.
Context (R : DocumentationTester -> DocumentationTester -> Prop).
Context {R_pre : PreOrder R}.

Lemma steady_ret {A : Type} (a : A) : steady R (mret a).
Proof. intros s. reflexivity. Qed.

Lemma steady_raise {A : Type} (e : exn) : steady R (@raise A e).
Proof. intros s. reflexivity. Qed.

Lemma steady_gets {A : Type} (f : State -> A) : steady R (gets f).
Proof. intros s. reflexivity. Qed.

Lemma steady_bind {A B : Type} (m : M A) (f : A -> M B) :
  steady R m -> (forall a, steady R (f a)) -> steady R (m ≫= f).
Proof.
  intros Hm Hf s. rewrite bind_run.
  specialize (Hm s). destruct (m s) as [[a|e] s1]; simpl in *.
  - etrans; [exact Hm | apply Hf].
  - exact Hm.
Qed.

Lemma steady_when (c : bool) (m : M unit) : steady R m -> steady R (when c m).
Proof. intros Hm. destruct c; [exact Hm | apply steady_ret]. Qed.

Lemma steady_for_each {X : Type} (l : list X) (body : X -> M unit) :
  (forall x, steady R (body x)) -> steady R (for_each l body).
Proof.
  intros Hb. induction l as [|x l IH]; simpl.
  - apply steady_ret.
  - apply steady_bind; [apply Hb | intros _; exact IH].
Qed.

Lemma steady_for_fold {X V : Type} (l : list X) (v : V) (body : V -> X -> M V) :
  (forall v x, steady R (body v x)) -> steady R (for_fold l v body).
Proof.
  intros Hb. revert v. induction l as [|x l IH]; intros v; simpl.
  - apply steady_ret.
  - apply steady_bind; [apply Hb | intros v'; apply IH].
Qed.

Lemma steady_try_except {A : Type} (body : M A) (handler : exn -> option (M A)) :
  steady R body ->
  (forall e h, handler e = Some h -> steady R h) ->
  steady R (try_except body handler).
Proof.
  intros Hb Hh s. unfold try_except.
  specialize (Hb s). destruct (body s) as [[a|e] s1]; simpl in *; [exact Hb|].
  destruct (handler e) as [h|] eqn:E; simpl; [|exact Hb].
  etrans; [exact Hb | exact (Hh e h E s1)].
Qed.

Lemma steady_try_finally {A : Type} (body : M A) (fin : M unit) :
  steady R body -> steady R fin -> steady R (try_finally body fin).
Proof.
  intros Hb Hf s. unfold try_finally.
  specialize (Hb s). destruct (body s) as [r s1]; simpl in *.
  specialize (Hf s1). destruct (fin s1) as [[[]|e] s2]; simpl in *;
    etrans; eassumption.
Qed.

(** A statement that leaves the tester alone. *)
Lemma steady_frame {A : Type} (m : M A) :
  (forall s, self (m s).2 = self s) -> steady R m.
Proof. intros H s. rewrite H. reflexivity. Qed.

Lemma steady_modify (f : State -> State) :
  (forall s, R (self s) (self (f s))) -> steady R (modify f).
Proof. intros H s. exact (H s). Qed.

End Steady.

(** The library calls act on the world only. *)
Section WorldOnly.
Context {platform : Platform}.

Lemma read_text_self (p : string) (s : State) :
  self (read_text p s).2 = self s.
Proof. unfold read_text. destruct (fs (os s) !! p) as [[c|]|]; reflexivity. Qed.

Lemma NamedTemporaryFile_self (suffix code : string) (s : State) :
  self (NamedTemporaryFile suffix code s).2 = self s.
Proof.
  unfold NamedTemporaryFile. destruct (mktemp (fs (os s)) suffix); reflexivity.
Qed.

Lemma subprocess_run_self (argv : list string) (t : nat) (s : State) :
  self (subprocess_run argv t s).2 = self s.
Proof.
  unfold subprocess_run. destruct (execute argv t (fs (os s))); reflexivity.
Qed.

Lemma unlink_self (p : string) (s : State) : self (unlink p s).2 = self s.
Proof. unfold unlink. destruct (fs (os s) !! p) as [[c|]|]; reflexivity. Qed.

(** Resolving and examining a path change nothing at all. *)
Lemma resolve_path_state (p : string) (s : State) : (resolve_path p s).2 = s.
Proof. reflexivity. Qed.

Lemma exists__state (p : string) (s : State) : (exists_ p s).2 = s.
Proof. unfold exists_. destruct (stat_error (fs (os s)) p); reflexivity. Qed.

Lemma resolve_path_self (p : string) (s : State) :
  self (resolve_path p s).2 = self s.
Proof. reflexivity. Qed.

Lemma exists__self (p : string) (s : State) : self (exists_ p s).2 = self s.
Proof. rewrite exists__state. reflexivity. Qed.

End WorldOnly.

(** [steady_step] takes a statement of the tool apart, down to the updates of
    the tester, which it leaves as goals. *)
Ltac steady_step :=
  lazymatch goal with
  | |- steady _ (mret _) => refine (steady_ret _ _)
  | |- steady _ (gets _) => refine (steady_gets _ _)
  | |- steady _ (raise _) => refine (steady_raise _ _)
  | |- steady _ (read_text _) =>
      refine (steady_frame _ _ _); apply read_text_self
  | |- steady _ (NamedTemporaryFile _ _) =>
      refine (steady_frame _ _ _); apply NamedTemporaryFile_self
  | |- steady _ (subprocess_run _ _) =>
      refine (steady_frame _ _ _); apply subprocess_run_self
  | |- steady _ (unlink _) => refine (steady_frame _ _ _); apply unlink_self
  | |- steady _ (resolve_path _) =>
      refine (steady_frame _ _ _); apply resolve_path_self
  | |- steady _ (exists_ _) => refine (steady_frame _ _ _); apply exists__self
  | |- steady _ (_ ≫= _) => refine (steady_bind _ _ _ _ _); [|intros ?]
  | |- steady _ (when _ _) => refine (steady_when _ _ _ _)
  | |- steady _ (for_each _ _) => refine (steady_for_each _ _ _ _); intros ?
  | |- steady _ (for_fold _ _ _) =>
      refine (steady_for_fold _ _ _ _ _); intros ? ?
  | |- steady _ (try_finally _ _) => refine (steady_try_finally _ _ _ _ _)
  | |- steady _ (try_except _ _) =>
      refine (steady_try_except _ _ _ _ _);
      [|let e := fresh "e" in
        intros e ? ?; destruct e; simplify_eq]
  | |- steady _ (if ?c then _ else _) => destruct c
  | |- steady _ (let '(_, _) := ?p in _) => destruct p
  | |- steady _ (match ?p with (_, _) => _ end) => destruct p
  end.

(** ** The counters *)

Global Instance stats_le_pre : PreOrder stats_le.
Proof.
  split.
  - intros a. unfold stats_le, Stats.le. lia.
  - intros a b c. unfold stats_le, Stats.le. lia.
Qed.

Create HintDb counters discriminated.

Section Counters.
Context {platform : Platform}.

Lemma set_stats_nondecreasing (f : Stats.t -> Stats.t) :
  (forall a, Stats.le a (f a)) -> nondecreasing (set_stats f).
Proof. intros Hf. refine (steady_modify _ _ _). intros s. apply Hf. Qed.

Lemma incr_files_checked_le (a : Stats.t) :
  Stats.le a (Stats.incr_files_checked a).
Proof. unfold Stats.le. simpl. lia. Qed.

Lemma incr_links_checked_le (a : Stats.t) :
  Stats.le a (Stats.incr_links_checked a).
Proof. unfold Stats.le. simpl. lia. Qed.

Lemma incr_code_blocks_tested_le (a : Stats.t) :
  Stats.le a (Stats.incr_code_blocks_tested a).
Proof. unfold Stats.le. simpl. lia. Qed.

Lemma _add_error_nondecreasing (filepath message : string) :
  nondecreasing (_add_error filepath message).
Proof.
  refine (steady_modify _ _ _). intros s. unfold stats_le, Stats.le. simpl. lia.
Qed.

Lemma _add_warning_nondecreasing (filepath message : string) :
  nondecreasing (_add_warning filepath message).
Proof.
  refine (steady_modify _ _ _). intros s. unfold stats_le, Stats.le. simpl. lia.
Qed.

End Counters.

Global Hint Resolve _add_error_nondecreasing _add_warning_nondecreasing
  : counters.
Global Hint Extern 1 (steady stats_le (set_stats _)) =>
  apply set_stats_nondecreasing;
  first [ apply incr_files_checked_le | apply incr_links_checked_le
        | apply incr_code_blocks_tested_le ] : counters.

(** Take a statement apart and close the updates with the hints of
    [counters]. *)
Ltac nondecreasing_tac :=
  repeat first [ solve [auto with counters] | steady_step ].

Section CountersOfMethods.
Context {platform : Platform}.

Lemma _check_markdown_syntax_nondecreasing (filepath content : string) :
  nondecreasing (_check_markdown_syntax filepath content).
Proof. unfold _check_markdown_syntax, heading_step. nondecreasing_tac. Qed.

Lemma _check_links_nondecreasing (filepath content : string) (fix_ : bool) :
  nondecreasing (_check_links filepath content fix_).
Proof. unfold _check_links, link_step. nondecreasing_tac. Qed.

Lemma _check_common_issues_nondecreasing (filepath content : string) :
  nondecreasing (_check_common_issues filepath content).
Proof. unfold _check_common_issues, long_line_step. nondecreasing_tac. Qed.

Lemma _test_python_code_nondecreasing (filepath code : string) :
  nondecreasing (_test_python_code filepath code).
Proof. unfold _test_python_code. nondecreasing_tac. Qed.

Lemma _test_javascript_code_nondecreasing (filepath code : string) :
  nondecreasing (_test_javascript_code filepath code).
Proof. unfold _test_javascript_code. nondecreasing_tac. Qed.

Lemma _test_bash_code_nondecreasing (filepath code : string) :
  nondecreasing (_test_bash_code filepath code).
Proof. unfold _test_bash_code. nondecreasing_tac. Qed.

End CountersOfMethods.

Global Hint Resolve _check_markdown_syntax_nondecreasing
  _check_links_nondecreasing _check_common_issues_nondecreasing
  _test_python_code_nondecreasing _test_javascript_code_nondecreasing
  _test_bash_code_nondecreasing : counters.

Section CountersOfRun.
Context {platform : Platform}.



End CountersOfRun.

(** The sweep over the external links changes nothing: neither the tester
    nor the world. *)
Section ExternalLinks.
Context {platform : Platform}.

Lemma unchanged_ret {A : Type} (a : A) : unchanged (mret a : M A).
Proof. intros s. reflexivity. Qed.

Lemma unchanged_bind {A B : Type} (m : M A) (f : A -> M B) :
  unchanged m -> (forall a, unchanged (f a)) -> unchanged (m ≫= f).
Proof.
  intros Hm Hf s. rewrite bind_run. specialize (Hm s).
  destruct (m s) as [[a|e] s1]; simpl in *; subst; [apply Hf | reflexivity].
Qed.

Lemma unchanged_for_fold {X V : Type} (l : list X) (v : V)
    (body : V -> X -> M V) :
  (forall v x, unchanged (body v x)) -> unchanged (for_fold l v body).
Proof.
  intros Hb. revert v. induction l as [|x l IH]; intros v; simpl.
  - apply unchanged_ret.
  - apply unchanged_bind; [apply Hb | intros v'; apply IH].
Qed.

Lemma read_text_unchanged (p : string) : unchanged (read_text p).
Proof.
  intros s. unfold read_text. destruct (fs (os s) !! p) as [[c|]|]; reflexivity.
Qed.

Lemma external_link_step_unchanged (md_file : string) (broken : list Broken)
    (link : string * string) :
  unchanged (external_link_step md_file broken link).
Proof.
  intros s. destruct link as [link_text url].
  unfold external_link_step, try_except, head_status_code.
  rewrite bind_run.
  destruct (requests_head url) as [n|e].
  - destruct (400 <=? n); reflexivity.
  - destruct e; reflexivity.
Qed.

Lemma check_external_links_unchanged (docs_path : string) :
  unchanged (check_external_links docs_path).
Proof.
  unfold check_external_links.
  destruct requests_installed; simpl; [|apply unchanged_ret].
  apply unchanged_bind; [intros s; reflexivity | intros w].
  apply unchanged_for_fold. intros broken md_file.
  destruct (Str.contains "node_modules" md_file); [apply unchanged_ret|].
  apply unchanged_bind; [apply read_text_unchanged | intros content].
  apply unchanged_for_fold. intros b l. apply external_link_step_unchanged.
Qed.


End ExternalLinks.


(** ** The auto-fix option *)

Section Fix.
Context {platform : Platform}.

Lemma for_each_ext {X : Type} (l : list X) (f g : X -> M unit) (s : State) :
  (forall x s', f x s' = g x s') -> for_each l f s = for_each l g s.
Proof.
  intros Hfg. revert s. induction l as [|x l IH]; intros s; simpl.
  - reflexivity.
  - rewrite !bind_run, Hfg. destruct (g x s) as [[[]|e] s1]; [apply IH|reflexivity].
Qed.

Lemma bind_ext {A B : Type} (m : M A) (f g : A -> M B) (s : State) :
  (forall a s', f a s' = g a s') -> (m ≫= f) s = (m ≫= g) s.
Proof.
  intros Hfg. rewrite !bind_run. destruct (m s) as [[a|e] s1]; [apply Hfg|reflexivity].
Qed.

(** [link_step] never reads its [fix] argument. *)
Lemma link_step_fix (filepath : string) (a b : bool)
    (link : string * string) (s : State) :
  link_step filepath a link s = link_step filepath b link s.
Proof. destruct link as [link_text link_url]. reflexivity. Qed.

Lemma _check_links_fix (filepath content : string) (a b : bool) (s : State) :
  _check_links filepath content a s = _check_links filepath content b s.
Proof.
  unfold _check_links. apply for_each_ext. intros link s'.
  apply link_step_fix.
Qed.

Lemma md_file_step_fix (execute_examples a b : bool) (md_file : string)
    (s : State) :
  md_file_step execute_examples a md_file s
  = md_file_step execute_examples b md_file s.
Proof.
  unfold md_file_step.
  destruct (Str.contains "node_modules" md_file || Str.contains ".git" md_file);
    [reflexivity|].
  apply bind_ext. intros _ s1. apply bind_ext. intros content s2.
  apply bind_ext. intros _ s3.
  rewrite !bind_run, (_check_links_fix md_file content a b). reflexivity.
Qed.

Lemma run_all_tests_fix (execute_examples a b : bool) (s : State) :
  run_all_tests execute_examples a s = run_all_tests execute_examples b s.
Proof.
  unfold run_all_tests. apply bind_ext. intros root s1.
  apply bind_ext. intros w s2.
  destruct (is_nil (glob_md (fs w) root)); [reflexivity|].
  rewrite !bind_run.
  rewrite (for_each_ext _ _ (md_file_step execute_examples b));
    [reflexivity | intros md_file s'; apply md_file_step_fix].
Qed.

End Fix.

(** C8. The auto-fix option changes nothing: with the option on and with it
    off, on the same tree and with the same other options, the link check,
    the whole of [run_all_tests] and [main] give the same outcome, the same
    tester (findings and statistics) and the same world. *)
Theorem fix_option_is_inert {platform : Platform} :
  (forall filepath content s,
     _check_links filepath content true s
     = _check_links filepath content false s)
  /\ (forall execute_examples s,
        run_all_tests execute_examples true s
        = run_all_tests execute_examples false s)
  /\ (forall path execute_examples check_links all w,
        main (mkArgs path execute_examples check_links true all) w
        = main (mkArgs path execute_examples check_links false all) w).
Proof.
  split; [intros; apply _check_links_fix|].
  split; [intros; apply run_all_tests_fix|].
  intros path ee cl al w. unfold main, main_body. simpl.
  destruct (negb (path_exists w (Path_ path))); [reflexivity|].
  rewrite !bind_run, (run_all_tests_fix _ true false). reflexivity.
Qed.

(** ** Placeholder blocks *)

Lemma in_list_spec (s : string) (l : list string) :
  in_list s l = true <-> In s l.
Proof.
  unfold in_list. rewrite existsb_exists. split.
  - intros (x & Hx & E). apply String.eqb_eq in E. subst. exact Hx.
  - intros Hs. exists s. split; [exact Hs | apply String.eqb_refl].
Qed.

Section Placeholder.
Context {platform : Platform}.

Lemma _test_python_code_placeholder (filepath code : string) (s : State) :
  has_placeholder code = true -> _test_python_code filepath code s = (Ok tt, s).
Proof.
  unfold has_placeholder, _test_python_code. intros ->. reflexivity.
Qed.

Lemma _test_javascript_code_placeholder (filepath code : string) (s : State) :
  has_placeholder code = true ->
  _test_javascript_code filepath code s = (Ok tt, s).
Proof.
  unfold has_placeholder, _test_javascript_code. intros ->. reflexivity.
Qed.

End Placeholder.

(** C7. A python or javascript block (tag [python], [javascript] or [js],
    in any case) whose body contains [YOUR_API_KEY], [your-] in any case, or
    [example.com] is skipped: both checkers return at once with the state
    they were given, and the step of the loop over the blocks leaves the
    world as it was (no command line is handed to a subprocess, no file is
    written) and appends no error and no warning, whatever the syntax check
    would have said. *)
Theorem placeholder_block_never_run {platform : Platform}
    (filepath lang code : string) (s : State) :
  in_list (Str.lower lang) ["python"; "javascript"; "js"] = true ->
  Str.contains "YOUR_API_KEY" code || Str.contains "your-" (Str.lower code)
  || Str.contains "example.com" code = true ->
  _test_python_code filepath code s = (Ok tt, s)
  /\ _test_javascript_code filepath code s = (Ok tt, s)
  /\ (code_block_step filepath (lang, code) s).1 = Ok tt
  /\ os (code_block_step filepath (lang, code) s).2 = os s
  /\ spawned (os (code_block_step filepath (lang, code) s).2) = spawned (os s)
  /\ errors (self (code_block_step filepath (lang, code) s).2) = errors (self s)
  /\ warnings (self (code_block_step filepath (lang, code) s).2)
     = warnings (self s).
Proof.
  intros Hlang Hcode.
  split; [apply _test_python_code_placeholder; exact Hcode|].
  split; [apply _test_javascript_code_placeholder; exact Hcode|].
  apply in_list_spec in Hlang. unfold code_block_step.
  destruct Hlang as [E|[E|[E|[]]]]; rewrite <- E; simpl;
    rewrite bind_run; simpl;
    rewrite ?_test_python_code_placeholder, ?_test_javascript_code_placeholder
      by exact Hcode;
    repeat split; reflexivity.
Qed.

(** An instance: a Python block that calls [example.com] and does not even
    close its parenthesis. *)
Lemma placeholder_block_never_run_witness :
  let s := Demo.start [] in
  let code := "requests.get('https://example.com/api'" in
  (@code_block_step Demo.platform "/docs/a.md" ("Python", code) s).1 = Ok tt
  /\ spawned (os (@code_block_step Demo.platform "/docs/a.md" ("Python", code) s).2)
     = []
  /\ errors (self (@code_block_step Demo.platform "/docs/a.md" ("Python", code) s).2)
     = [].
Proof.
  pose proof (@placeholder_block_never_run Demo.platform "/docs/a.md" "Python"
                "requests.get('https://example.com/api'" (Demo.start [])
                eq_refl eq_refl) as (_ & _ & H1 & _ & H2 & H3 & _).
  exact (conj H1 (conj H2 H3)).
Defined.

(** ** The counter of tested code blocks *)

Global Instance same_tested_pre : PreOrder same_tested.
Proof.
  split.
  - intros a. reflexivity.
  - intros a b c. unfold same_tested. congruence.
Qed.

Create HintDb tested discriminated.

Section Tested.
Context {platform : Platform}.

Lemma _add_error_same_tested (filepath message : string) :
  steady same_tested (_add_error filepath message).
Proof. refine (steady_modify _ _ _). intros s. reflexivity. Qed.

Lemma _add_warning_same_tested (filepath message : string) :
  steady same_tested (_add_warning filepath message).
Proof. refine (steady_modify _ _ _). intros s. reflexivity. Qed.

End Tested.

Global Hint Resolve _add_error_same_tested _add_warning_same_tested : tested.

Ltac same_tested_tac :=
  repeat first [ solve [auto with tested] | steady_step ].

Section TestedByHandlers.
Context {platform : Platform}.

Lemma _test_python_code_same_tested (filepath code : string) :
  steady same_tested (_test_python_code filepath code).
Proof. unfold _test_python_code. same_tested_tac. Qed.

Lemma _test_javascript_code_same_tested (filepath code : string) :
  steady same_tested (_test_javascript_code filepath code).
Proof. unfold _test_javascript_code. same_tested_tac. Qed.

Lemma _test_bash_code_same_tested (filepath code : string) :
  steady same_tested (_test_bash_code filepath code).
Proof. unfold _test_bash_code. same_tested_tac. Qed.

(** One turn of the loop adds one for an eligible block and nothing for
    another, also when the handler raises. *)
Lemma code_block_step_tested (filepath : string) (block : string * string)
    (s : State) :
  tested (code_block_step filepath block s).2
  = tested s + (if eligible block then 1 else 0).
Proof.
  destruct block as [lang code]. unfold code_block_step, eligible. cbn [fst].
  destruct (in_list (Str.lower lang) non_executable); cbn [negb].
  { unfold tested. simpl. lia. }
  rewrite bind_run. cbn [set_stats modify].
  set (s1 := mkState _ (os s)).
  assert (tested s1 = tested s + 1) as <- by reflexivity.
  unfold tested. symmetry.
  destruct (String.eqb (Str.lower lang) "python");
    [apply _test_python_code_same_tested|].
  destruct (in_list (Str.lower lang) ["javascript"; "js"]);
    [apply _test_javascript_code_same_tested|].
  destruct (String.eqb (Str.lower lang) "bash");
    [apply _test_bash_code_same_tested | reflexivity].
Qed.

Lemma for_each_tested (filepath : string) (blocks : list (string * string))
    (s s' : State) :
  for_each blocks (code_block_step filepath) s = (Ok tt, s') ->
  tested s' = tested s + length (List.filter eligible blocks).
Proof.
  revert s. induction blocks as [|b blocks IH]; intros s; simpl.
  - intros [= <-]. lia.
  - rewrite bind_run. pose proof (code_block_step_tested filepath b s) as Hb.
    destruct (code_block_step filepath b s) as [[[]|e] s1]; [|discriminate].
    intros Hrest. apply IH in Hrest. simpl in Hb.
    destruct (eligible b); simpl; lia.
Qed.

End TestedByHandlers.

(** C10. The counter of tested code blocks counts the blocks with an
    eligible tag, not the checks made.  One turn of the loop over the blocks
    adds one to the counter exactly when the tag of the block, in lower
    case, is not in the non-executable list, whatever the handler does; a
    call of [_test_code_examples] that returns has added the number of
    eligible blocks of the document; for a tag with no handler (such as
    [ruby] or [go]) the turn does nothing but add one; and for a Python
    block skipped as a placeholder the turn does nothing but add one
    either. *)
Theorem code_blocks_tested_counts_tags {platform : Platform} :
  (forall filepath block s,
     tested (code_block_step filepath block s).2
     = tested s + (if eligible block then 1 else 0))
  /\ (forall filepath content s s',
        _test_code_examples filepath content s = (Ok tt, s') ->
        tested s'
        = tested s
          + length (List.filter eligible (Re.findall Re.code_block content)))
  /\ (forall filepath lang code s,
        in_list (Str.lower lang)
          (non_executable ++ ["python"; "javascript"; "js"; "bash"]) = false ->
        code_block_step filepath (lang, code) s
        = set_stats Stats.incr_code_blocks_tested s)
  /\ (forall filepath lang code s,
        Str.lower lang = "python" ->
        has_placeholder code = true ->
        code_block_step filepath (lang, code) s
        = set_stats Stats.incr_code_blocks_tested s).
Proof.
  split; [apply code_block_step_tested|].
  split; [intros filepath content s s'; apply for_each_tested|].
  split.
  - intros filepath lang code s Hlang. unfold code_block_step, in_list in *.
    rewrite existsb_app in Hlang. apply orb_false_elim in Hlang as [-> Hrest].
    simpl in Hrest.
    repeat (apply orb_false_elim in Hrest as [? Hrest]).
    rewrite bind_run. simpl.
    repeat match goal with H : String.eqb _ _ = false |- _ => rewrite H; clear H end.
    reflexivity.
  - intros filepath lang code s Hlang Hcode. unfold code_block_step.
    rewrite Hlang. simpl.
    rewrite bind_run. simpl. apply _test_python_code_placeholder, Hcode.
Qed.

(** An instance: a document with a [ruby] block, a [json] block, a [go]
    block and a Python block with a placeholder counts three blocks, and
    starts no process. *)
Lemma code_blocks_tested_counts_tags_witness :
  let content :=
    Demo.lines ["```ruby"; "puts 1"; "```"; "```json"; "{"; "```";
                "```go"; "func"; "```";
                "```python"; "get('example.com'"; "```"] in
  tested (@_test_code_examples Demo.platform "/docs/a.md" content
            (Demo.start [])).2 = 0 + 3
  /\ spawned (os (@_test_code_examples Demo.platform "/docs/a.md" content
                    (Demo.start [])).2) = [].
Proof.
  intros content. split; [|reflexivity].
  apply (proj1 (proj2 (@code_blocks_tested_counts_tags Demo.platform))
           "/docs/a.md" content (Demo.start [])).
  vm_compute. reflexivity.
Defined.

(** ** Findings *)

Global Instance adds_pre (PE PW : Finding -> Prop) : PreOrder (adds PE PW).
Proof.
  split.
  - intros a. exists [], []. rewrite !app_nil_r. auto.
  - intros a b c (e1 & w1 & He1 & Hw1 & Pe1 & Pw1) (e2 & w2 & He2 & Hw2 & Pe2 & Pw2).
    exists (e1 ++ e2), (w1 ++ w2).
    rewrite He2, He1, Hw2, Hw1, !app_assoc.
    repeat split; try reflexivity; apply Forall_app; auto.
Qed.

Section Adds.
Context {platform : Platform}.
Context (PE PW : Finding -> Prop).

Lemma _add_error_adds (filepath message : string) :
  PE (filepath, message) -> steady (adds PE PW) (_add_error filepath message).
Proof.
  intros H. refine (steady_modify _ _ _). intros s.
  exists [(filepath, message)], []. simpl. rewrite app_nil_r. auto.
Qed.

Lemma _add_warning_adds (filepath message : string) :
  PW (filepath, message) -> steady (adds PE PW) (_add_warning filepath message).
Proof.
  intros H. refine (steady_modify _ _ _). intros s.
  exists [], [(filepath, message)]. simpl. rewrite app_nil_r. auto.
Qed.

Lemma set_stats_adds (f : Stats.t -> Stats.t) :
  steady (adds PE PW) (set_stats f).
Proof.
  refine (steady_modify _ _ _). intros s.
  exists [], []. simpl. rewrite !app_nil_r. auto.
Qed.

End Adds.

(** Take a statement apart; what is left is to show that each message it
    can append satisfies the predicate. *)
Ltac adds_tac :=
  repeat first
    [ steady_step
    | apply set_stats_adds
    | apply _add_error_adds
    | apply _add_warning_adds ].

Lemma new_errors_app (s s' : State) (e : list Finding) :
  errors (self s') = errors (self s) ++ e -> new_errors s s' = e.
Proof. intros H. unfold new_errors. rewrite H. apply drop_app_length. Qed.

Lemma new_warnings_app (s s' : State) (w : list Finding) :
  warnings (self s') = warnings (self s) ++ w -> new_warnings s s' = w.
Proof. intros H. unfold new_warnings. rewrite H. apply drop_app_length. Qed.

Lemma with_message_app (message : string) (l1 l2 : list Finding) :
  with_message message (l1 ++ l2)
  = with_message message l1 ++ with_message message l2.
Proof. apply List.filter_app. Qed.

Lemma with_message_none (message : string) (P : Finding -> Prop)
    (l : list Finding) :
  (forall f, P f -> String.eqb f.2 message = false) ->
  Forall P l -> with_message message l = [].
Proof.
  intros HP Hl. induction Hl as [|f l Hf _ IH]; simpl; [reflexivity|].
  rewrite (HP f Hf). exact IH.
Qed.

(** ** The structural check *)

Lemma startswith_app (p x : string) : Str.startswith (p +:+ x) p = true.
Proof.
  unfold Str.startswith. induction p as [|a p IH].
  - destruct x; reflexivity.
  - change (String a p +:+ x) with (String a (p +:+ x)). simpl.
    destruct (ascii_dec a a); [exact IH | congruence].
Qed.

Section Structure.
Context {platform : Platform}.

Lemma heading_loop_adds (filepath : string) (l : list (nat * string)) (v : nat) :
  steady (adds (fun _ => False) line_message)
    (for_fold l v (heading_step filepath)).
Proof.
  unfold heading_step. adds_tac. apply startswith_app.
Qed.

(** What [_check_markdown_syntax] appends: the error for empty links, the
    error for an odd number of fences, the warning for several first-level
    headings, and warnings of the heading hierarchy. *)
Lemma _check_markdown_syntax_findings (filepath content : string) (s : State) :
  exists w,
    Forall line_message w
    /\ errors (self (_check_markdown_syntax filepath content s).2)
       = errors (self s)
         ++ (if negb (is_nil (Re.findall Re.empty_link content))
          then [(filepath,
                 "Empty links found: "
                 +:+ Str.join ", " (Re.findall Re.empty_link content))]
          else [])
         ++ (if Str.count content "```" mod 2 =? 0 then []
             else [(filepath, fence_message)])
    /\ warnings (self (_check_markdown_syntax filepath content s).2)
       = warnings (self s)
         ++ (if 1 <? length (List.filter is_h1 (Str.split (Str.chr 10) content))
             then [(filepath, h1_message)] else [])
         ++ w.
Proof.
  unfold _check_markdown_syntax, h1_message, fence_message.
  set (c1 := 1 <? _). set (c2 := negb (is_nil _)).
  set (c3 := Str.count content "```" mod 2 =? 0).
  set (m := "Empty links found: " +:+ _).
  destruct c1, c2, c3.
  all: repeat (rewrite bind_run;
               cbn [when negb _add_warning _add_error modify mret M_ret]).
  all: match goal with
       | |- context [for_fold ?l ?v ?b ?s3] =>
           pose proof (heading_loop_adds filepath l v s3)
             as (e & w & He & Hw & Pe & Pw);
           destruct (for_fold l v b s3) as [[v'|ex] s4]
       end.
  all: cbn [snd fst self errors warnings] in He, Hw |- *.
  all: destruct e as [|? ?]; [|inversion Pe; contradiction].
  all: exists w; split; [exact Pw|].
  all: rewrite app_nil_r in He.
  all: split.
  all: cbn [snd fst self errors warnings mret M_ret]; rewrite ?He, ?Hw.
  all: cbn [app]; rewrite <- ?app_assoc, ?app_nil_r; reflexivity.
Qed.

End Structure.

Lemma line_message_first (f : Finding) :
  line_message f -> exists rest, f.2 = String "L" rest.
Proof.
  destruct f as [p message]. unfold line_message, Str.startswith. cbn [snd].
  destruct message as [|c message]; [discriminate|].
  change (String.prefix "Line " (String c message))
    with (match ascii_dec "L" c with
          | left _ => String.prefix "ine " message
          | right _ => false
          end).
  destruct (ascii_dec "L" c) as [<-|]; [eauto | discriminate].
Qed.

Lemma mod2_even (n : nat) : (n mod 2 =? 0) = Nat.even n.
Proof.
  destruct (Nat.even n) eqn:E.
  - apply Nat.even_spec in E as [k ->]. apply Nat.eqb_eq.
    rewrite Nat.mul_comm. apply Nat.Div0.mod_mul.
  - apply Nat.eqb_neq. intros H.
    assert (Nat.even n = true) as E'; [|congruence].
    apply Nat.even_spec. exists (n / 2).
    pose proof (Nat.div_mod_eq n 2). lia.
Qed.

(** C6. The fence-parity finding.  After [_check_markdown_syntax] the
    findings the tester had are still there, in place; among the errors the
    call appended there is no [Unclosed code block] error when the number of
    triple-fence markers of the document ([content.count]) is even, and
    exactly one, for this document, when it is odd; and no warning carries
    that message. *)
Theorem fence_parity_error (filepath content : string) (s : State) :
  errors (self (_check_markdown_syntax filepath content s).2)
  = errors (self s)
    ++ new_errors s (_check_markdown_syntax filepath content s).2
  /\ with_message fence_message
       (new_errors s (_check_markdown_syntax filepath content s).2)
     = (if Nat.even (Str.count content "```") then []
        else [(filepath, fence_message)])
  /\ with_message fence_message
       (new_warnings s (_check_markdown_syntax filepath content s).2)
     = [].
Proof.
  destruct (_check_markdown_syntax_findings filepath content s)
    as (w & Pw & He & Hw).
  rewrite (new_errors_app _ _ _ He), (new_warnings_app _ _ _ Hw).
  split; [exact He|].
  rewrite <- mod2_even. split.
  - rewrite with_message_app.
    destruct (negb (is_nil (Re.findall Re.empty_link content)));
      destruct (Str.count content "```" mod 2 =? 0); reflexivity.
  - rewrite with_message_app.
    rewrite (with_message_none fence_message line_message w); [|  |exact Pw].
    + destruct (1 <? _); reflexivity.
    + intros f [rest Hf]%line_message_first. rewrite Hf. reflexivity.
Qed.

(** C4, as the code has it.  Several first-level headings are reported as a
    warning, not as an error.  After [_check_markdown_syntax] the warnings
    the tester had are still there, in place; among the warnings the call
    appended there is exactly one [Multiple H1 headers] warning, for this
    document, when more than one line of the document is a first-level
    heading ([is_h1]), however many there are, and none otherwise; and no
    error carries that message. *)
Theorem multiple_h1_warning (filepath content : string) (s : State) :
  warnings (self (_check_markdown_syntax filepath content s).2)
  = warnings (self s)
    ++ new_warnings s (_check_markdown_syntax filepath content s).2
  /\ with_message h1_message
       (new_warnings s (_check_markdown_syntax filepath content s).2)
     = (if 1 <? length (List.filter is_h1 (Str.split (Str.chr 10) content))
        then [(filepath, h1_message)] else [])
  /\ with_message h1_message
       (new_errors s (_check_markdown_syntax filepath content s).2)
     = [].
Proof.
  destruct (_check_markdown_syntax_findings filepath content s)
    as (w & Pw & He & Hw).
  rewrite (new_errors_app _ _ _ He), (new_warnings_app _ _ _ Hw).
  split; [exact Hw|]. split.
  - rewrite with_message_app.
    rewrite (with_message_none h1_message line_message w); [| |exact Pw].
    + destruct (1 <? _); reflexivity.
    + intros f [rest Hf]%line_message_first. rewrite Hf. reflexivity.
  - rewrite with_message_app.
    destruct (negb (is_nil (Re.findall Re.empty_link content)));
      destruct (Str.count content "```" mod 2 =? 0); reflexivity.
Qed.

(** C4 as stated fails: a document with two first-level headings gets no
    error at all; the finding is a warning. *)
Lemma multiple_h1_is_not_an_error :
  let content := Demo.lines ["# First"; "text"; "# Second"] in
  let s' := (_check_markdown_syntax "/docs/a.md" content (Demo.start [])).2 in
  length (List.filter is_h1 (Str.split (Str.chr 10) content)) = 2
  /\ errors (self s') = []
  /\ warnings (self s') = [("/docs/a.md", h1_message)]
  /\ Stats.errors (stats (self s')) = 0.
Proof. repeat split; reflexivity. Qed.

(** ** Local links *)

Section LocalLinks.
Context {platform : Platform}.
Import Str.

Lemma link_step_local (filepath : string) (fix_ : bool)
    (link_text target : string) (s : State) :
  is_local target = true ->
  link_step filepath fix_ (link_text, target) s
  = match link_check (os s) (docs_path (self s)) filepath target with
    | Ok e => (Ok tt, after_link s e)
    | Raise x => (Raise x, after_link s [])
    end.
Proof.
  unfold is_local. intros H.
  apply andb_prop in H as [H H3]. apply andb_prop in H as [H1 H2].
  apply negb_true_iff in H1, H2, H3.
  unfold link_step. rewrite bind_run. cbn [set_stats modify].
  rewrite H1, H2, H3.
  rewrite bind_run; cbn [gets os self docs_path].
  rewrite bind_run.
  unfold link_check, checked_path, strip_anchor, after_link.
  assert (forall m : State,
            mkState
              (mkTester (docs_path (self m)) (errors (self m) ++ [])
                 (warnings (self m))
                 (Stats.mk (Stats.files_checked (stats (self m)))
                    (Stats.links_checked (stats (self m)) + 1)
                    (Stats.code_blocks_tested (stats (self m)))
                    (Stats.errors (stats (self m)) + length (@nil Finding))
                    (Stats.warnings (stats (self m)))))
              (os m)
            = mkState
                (mkTester (docs_path (self m)) (errors (self m))
                   (warnings (self m))
                   (Stats.incr_links_checked (stats (self m))))
                (os m)) as Hnil.
  { intros m. cbn [length]. rewrite app_nil_r, Nat.add_0_r. reflexivity. }
  destruct (startswith target "/"); cbn [negb resolve_path os];
    match goal with
    | |- context [resolve ?f ?p] => destruct (resolve f p) as [q|x]
    end; try (rewrite Hnil; reflexivity);
    rewrite bind_run; unfold exists_; cbn [os];
    match goal with
    | |- context [stat_error ?f ?p] => destruct (stat_error f p) as [x|]
    end; try (rewrite Hnil; reflexivity);
    match goal with
    | |- context [path_exists ?w ?p] => destruct (path_exists w p)
    end; cbn [negb when mret M_ret _add_error modify length os self errors
              warnings docs_path stats Stats.errors Stats.incr_errors
              Stats.incr_links_checked Stats.files_checked Stats.links_checked
              Stats.code_blocks_tested Stats.warnings];
    rewrite ?app_nil_r, ?Nat.add_0_r; reflexivity.
Qed.

Lemma link_step_not_local (filepath : string) (fix_ : bool)
    (link_text target : string) (s : State) :
  is_local target = false ->
  link_step filepath fix_ (link_text, target) s = (Ok tt, after_link s []).
Proof.
  unfold is_local, link_step, after_link. intros H.
  rewrite bind_run. cbn [set_stats modify].
  rewrite app_nil_r, Nat.add_0_r.
  destruct (startswith target "#"); [reflexivity|].
  destruct (startswith target "http://" || startswith target "https://");
    [reflexivity|].
  destruct (startswith target "mailto:"); [reflexivity | discriminate].
Qed.

(** Every link is counted before it is checked, also one whose check
    raises; no step touches the world or the warnings. *)
Lemma link_step_counts (filepath : string) (fix_ : bool)
    (link : string * string) (s : State) :
  exists e,
    (link_step filepath fix_ link s).2 = after_link s e
    /\ ((link_step filepath fix_ link s).1 = Ok tt ->
        e = (if is_local link.2
             then broken_link (os s) (docs_path (self s)) filepath link.2
             else [])).
Proof.
  destruct link as [link_text target]. cbn [snd].
  destruct (is_local target) eqn:E.
  - rewrite (link_step_local _ _ _ _ _ E). unfold broken_link.
    destruct (link_check _ _ _ _) as [e|x]; eexists; (split; [reflexivity|]);
      cbn [fst]; [reflexivity | discriminate].
  - rewrite (link_step_not_local _ _ _ _ _ E). eexists.
    split; reflexivity.
Qed.

Lemma for_each_link_step (filepath : string) (fix_ : bool)
    (links : list (string * string)) (s : State) :
  os (for_each links (link_step filepath fix_) s).2 = os s
  /\ warnings (self (for_each links (link_step filepath fix_) s).2)
     = warnings (self s)
  /\ ((for_each links (link_step filepath fix_) s).1 = Ok tt ->
      errors (self (for_each links (link_step filepath fix_) s).2)
      = errors (self s)
        ++ broken_links (os s) (docs_path (self s)) filepath links
      /\ Stats.links_checked
           (stats (self (for_each links (link_step filepath fix_) s).2))
         = Stats.links_checked (stats (self s)) + length links).
Proof.
  revert s. induction links as [|link links IH]; intros s.
  - simpl. rewrite app_nil_r, Nat.add_0_r. auto.
  - cbn [for_each]. rewrite bind_run.
    destruct (link_step_counts filepath fix_ link s) as (e & Hs & He).
    destruct (link_step filepath fix_ link s) as [[[]|x] s1];
      cbn [fst snd] in *; subst s1.
    + destruct (IH (after_link s e)) as (H1 & H2 & H3).
      rewrite H1, H2. split; [reflexivity|]. split; [reflexivity|].
      intros Hr. destruct (H3 Hr) as [H4 H5]. rewrite H4, H5.
      cbn [after_link os self warnings errors docs_path stats
           Stats.links_checked broken_links flat_map length].
      rewrite <- (He eq_refl), <- app_assoc. split; [reflexivity | lia].
    + split; [reflexivity|]. split; [reflexivity|]. discriminate.
Qed.

(** When the check of the links returns, the check of each link did: the
    links are checked on the same world and under the same root. *)
Lemma for_each_reaches (filepath : string) (fix_ : bool)
    (links : list (string * string)) (s : State) :
  (for_each links (link_step filepath fix_) s).1 = Ok tt ->
  forall link, In link links ->
    is_local link.2 = true ->
    exists e,
      link_check (os s) (docs_path (self s)) filepath link.2 = Ok e.
Proof.
  revert s. induction links as [|l links IH]; intros s Hr link Hin Hlocal;
    [destruct Hin|].
  cbn [for_each] in Hr. rewrite bind_run in Hr.
  destruct (link_step_counts filepath fix_ l s) as (e & Hs & _).
  destruct Hin as [->|Hin].
  - destruct link as [link_text target]. cbn [snd] in *.
    rewrite (link_step_local _ _ _ _ _ Hlocal) in Hr.
    destruct (link_check _ _ _ _) as [e'|x]; [eauto | discriminate].
  - destruct (link_step filepath fix_ l s) as [[[]|x] s1];
      cbn [fst snd] in *; [|discriminate].
    subst s1. exact (IH (after_link s e) Hr link Hin Hlocal).
Qed.

End LocalLinks.

(** C5, where the code misses it.  The root is [/c#docs], a directory whose
    name holds a [#].  In [/c#docs/guide.md] the link to [missing.md] is a
    local link that resolves to [/c#docs/missing.md], which is absent.  The
    anchor is not taken off the target: the resolved path is cut at its
    first [#], wherever it is, so the path examined is [/c].  With a
    directory [/c] the check returns and no error is appended; without it
    the link to [guide.md], the document itself, is reported broken.  And
    under the root [/docs] a link whose name the system refuses to examine,
    one of 256 characters, ends the check of the document in an exception,
    with the link counted and no finding. *)
Theorem local_link_check_misses :
  let filepath := "/c#docs/guide.md" in
  let files :=
    <["/c#docs" := Dir]>
      (<[filepath := File "[m](missing.md) [g](guide.md)"]> ∅) in
  let s := mkState (init "/c#docs") (mkWorld files []) in
  let s_c := mkState (init "/c#docs") (mkWorld (<["/c" := Dir]> files) []) in
  let long := "[m](" +:+ Demo.long_name +:+ ")" in
  let s_d := Demo.start [("/docs/guide.md", long)] in
  Re.findall Re.link "[m](missing.md)" = [("m", "missing.md")]
  /\ is_local "missing.md" = true
  /\ @resolve Demo.platform (fs (os s_c))
       (@joinpath Demo.platform (@parent Demo.platform filepath) "missing.md")
     = Ok "/c#docs/missing.md"
  /\ path_exists (os s_c) "/c#docs/missing.md" = false
  /\ @_check_links Demo.platform filepath "[m](missing.md)" false s_c
     = (Ok tt, after_link s_c [])
  /\ path_exists (os s) filepath = true
  /\ @_check_links Demo.platform filepath "[g](guide.md)" false s
     = (Ok tt, after_link s [(filepath, "Broken link: guide.md -> /c")])
  /\ Str.len Demo.long_name = 256
  /\ is_local Demo.long_name = true
  /\ @_check_links Demo.platform "/docs/guide.md" long false s_d
     = (Raise (Exception "OSError: [Errno 36] File name too long"),
        after_link s_d []).
Proof. vm_compute. repeat split; reflexivity. Qed.

(** ** The syntax check in a subprocess *)

Section SyntaxCheck.
Context {platform : Platform}.

Lemma checked_run_spec (argv : list string)
    (filepath error_text timeout_text failure_text temp_file : string)
    (s : State) (r : result CompletedProcess) (files : gmap string node) :
  execute argv 5 (fs (os s)) = (r, files) ->
  checked_run argv filepath error_text timeout_text failure_text temp_file s
  = (checked_result r (unlinked files temp_file).1,
     mkState
       (with_findings (self s)
          (check_findings filepath error_text timeout_text failure_text r))
       (mkWorld (unlinked files temp_file).2 (spawned (os s) ++ [argv]))).
Proof.
  intros Hrun. destruct s as [[root es ws [n1 n2 n3 n4 n5]] [files0 log]].
  cbn [os fs self] in *.
  unfold checked_run, try_finally, try_except, subprocess_run.
  rewrite bind_run. cbn [os fs self spawned]. rewrite Hrun.
  unfold unlink, unlinked, with_findings, check_findings, checked_result.
  destruct r as [[rc out err]|e].
  - cbn [returncode stderr]. destruct (rc =? 0)%Z;
      cbn [negb when mret M_ret _add_error modify os fs self spawned errors
           warnings docs_path stats fst snd length];
      destruct (files !! temp_file) as [[c|]|];
      cbn [fst snd Stats.incr_errors Stats.files_checked Stats.links_checked
           Stats.code_blocks_tested Stats.errors Stats.warnings];
      rewrite ?app_nil_r, ?Nat.add_0_r; reflexivity.
  - destruct e;
      cbn [_add_warning modify os fs self spawned errors warnings docs_path
           stats fst snd length exn_str];
      destruct (files !! temp_file) as [[c|]|];
      cbn [fst snd Stats.incr_warnings Stats.files_checked Stats.links_checked
           Stats.code_blocks_tested Stats.errors Stats.warnings];
      rewrite ?app_nil_r, ?Nat.add_0_r; reflexivity.
Qed.

(** [_test_python_code] on a block without a placeholder, when the temporary
    file can be created. *)
Lemma _test_python_code_run (filepath code temp_file : string) (s : State) :
  has_placeholder code = false ->
  mktemp (fs (os s)) ".py" = Some temp_file ->
  _test_python_code filepath code s
  = checked_run ["python"; "-m"; "py_compile"; temp_file] filepath
      "Python code syntax error:" "Python code test timed out"
      "Could not test Python code: " temp_file
      (mkState (self s)
         (mkWorld (<[temp_file := File code]> (fs (os s))) (spawned (os s)))).
Proof.
  unfold has_placeholder, _test_python_code. intros -> Htmp.
  rewrite bind_run. unfold NamedTemporaryFile. rewrite Htmp. reflexivity.
Qed.

(** [_test_javascript_code] on a block without a placeholder when [node]
    cannot be started: the block is skipped. *)
Lemma _test_javascript_code_no_node (filepath code : string) (s : State)
    (e : exn) (files : gmap string node) :
  has_placeholder code = false ->
  execute ["node"; "--version"] 2 (fs (os s)) = (Raise e, files) ->
  _test_javascript_code filepath code s
  = (Ok tt,
     mkState (self s) (mkWorld files (spawned (os s) ++ [["node"; "--version"]]))).
Proof.
  unfold has_placeholder, _test_javascript_code. intros -> Hnode.
  rewrite bind_run. unfold try_except, subprocess_run.
  rewrite bind_run, Hnode. reflexivity.
Qed.

(** [_test_javascript_code] on a block without a placeholder when [node]
    answers and the temporary file can be created. *)
Lemma _test_javascript_code_run (filepath code temp_file : string) (s : State)
    (version : CompletedProcess) (files : gmap string node) :
  has_placeholder code = false ->
  execute ["node"; "--version"] 2 (fs (os s)) = (Ok version, files) ->
  mktemp files ".js" = Some temp_file ->
  _test_javascript_code filepath code s
  = checked_run ["node"; "--check"; temp_file] filepath
      "JavaScript code syntax error:" "JavaScript code test timed out"
      "Could not test JavaScript code: " temp_file
      (mkState (self s)
         (mkWorld (<[temp_file := File code]> files)
            (spawned (os s) ++ [["node"; "--version"]]))).
Proof.
  unfold has_placeholder, _test_javascript_code. intros -> Hnode Htmp.
  rewrite bind_run. unfold try_except, subprocess_run.
  rewrite bind_run, Hnode. cbn [mret M_ret negb].
  rewrite bind_run. unfold NamedTemporaryFile. cbn [os fs self spawned].
  rewrite Htmp. reflexivity.
Qed.

End SyntaxCheck.

Section AfterCheck.
Context {platform : Platform}.

(** After the shared block the temporary file is no file any more; it is no
    path at all unless the subprocess left a directory in its place. *)
Lemma checked_run_removes (argv : list string)
    (filepath error_text timeout_text failure_text temp_file : string)
    (s : State) (r : result CompletedProcess) (files : gmap string node) :
  execute argv 5 (fs (os s)) = (r, files) ->
  is_file
    (os (checked_run argv filepath error_text timeout_text failure_text
           temp_file s).2) temp_file = false
  /\ (files !! temp_file <> Some Dir ->
      path_exists
        (os (checked_run argv filepath error_text timeout_text failure_text
               temp_file s).2) temp_file = false).
Proof.
  intros Hrun. rewrite (checked_run_spec _ _ _ _ _ _ _ _ _ Hrun).
  unfold is_file, path_exists, unlinked. cbn [snd os fs].
  destruct (files !! temp_file) as [[c|]|] eqn:E; cbn [snd].
  - rewrite lookup_delete_eq. split; reflexivity.
  - rewrite E. split; [reflexivity | congruence].
  - rewrite lookup_delete_eq. split; reflexivity.
Qed.

(** The findings of the shared block. *)
Lemma checked_run_findings (argv : list string)
    (filepath error_text timeout_text failure_text temp_file : string)
    (s s0 : State) (r : result CompletedProcess) (files : gmap string node) :
  self s = self s0 ->
  execute argv 5 (fs (os s)) = (r, files) ->
  new_errors s0
    (checked_run argv filepath error_text timeout_text failure_text
       temp_file s).2
  = (check_findings filepath error_text timeout_text failure_text r).1
  /\ new_warnings s0
       (checked_run argv filepath error_text timeout_text failure_text
          temp_file s).2
     = (check_findings filepath error_text timeout_text failure_text r).2.
Proof.
  intros Hself Hrun. rewrite (checked_run_spec _ _ _ _ _ _ _ _ _ Hrun).
  cbn [snd]. split.
  - apply new_errors_app. cbn [self with_findings errors]. rewrite Hself.
    reflexivity.
  - apply new_warnings_app. cbn [self with_findings warnings]. rewrite Hself.
    reflexivity.
Qed.

End AfterCheck.

(** C2. The temporary file of a syntax check is gone when the checker is
    done.  For a Python block without a placeholder whose temporary file was
    created, and for a JavaScript block without a placeholder for which
    [node] answered and whose temporary file was created: whatever the
    subprocess did (it returned with exit code zero or not, ran out of time,
    raised another exception, or was interrupted, in which case the
    exception leaves the checker), the temporary path is no regular file in
    the world the checker leaves, and it is no path at all as long as the
    subprocess did not put a directory in its place. *)
Theorem temporary_file_removed {platform : Platform}
    (filepath code temp_file : string) (s : State) :
  has_placeholder code = false ->
  (mktemp (fs (os s)) ".py" = Some temp_file ->
   forall r files,
     execute ["python"; "-m"; "py_compile"; temp_file] 5
       (<[temp_file := File code]> (fs (os s))) = (r, files) ->
     is_file (os (_test_python_code filepath code s).2) temp_file = false
     /\ (files !! temp_file <> Some Dir ->
         path_exists (os (_test_python_code filepath code s).2) temp_file
         = false))
  /\ (forall version files0,
        execute ["node"; "--version"] 2 (fs (os s)) = (Ok version, files0) ->
        mktemp files0 ".js" = Some temp_file ->
        forall r files,
          execute ["node"; "--check"; temp_file] 5
            (<[temp_file := File code]> files0) = (r, files) ->
          is_file (os (_test_javascript_code filepath code s).2) temp_file
          = false
          /\ (files !! temp_file <> Some Dir ->
              path_exists (os (_test_javascript_code filepath code s).2)
                temp_file = false)).
Proof.
  intros Hcode. split.
  - intros Htmp r files Hrun.
    rewrite (_test_python_code_run _ _ _ _ Hcode Htmp).
    apply (checked_run_removes _ _ _ _ _ _ _ r files). exact Hrun.
  - intros version files0 Hnode Htmp r files Hrun.
    rewrite (_test_javascript_code_run _ _ _ _ _ _ Hcode Hnode Htmp).
    apply (checked_run_removes _ _ _ _ _ _ _ r files). exact Hrun.
Qed.

(** An instance: a Python block on which the checker runs out of time; the
    temporary file [/tmp/tmpdoc0.py] does not exist afterwards. *)
Lemma temporary_file_removed_witness :
  let code := "time.sleep(60)" in
  has_placeholder code = false
  /\ @mktemp Demo.platform (fs (os (Demo.start []))) ".py"
     = Some "/tmp/tmpdoc0.py"
  /\ path_exists
       (os (@_test_python_code Demo.platform "/docs/a.md" code
              (Demo.start [])).2) "/tmp/tmpdoc0.py" = false.
Proof.
  intros code. split; [reflexivity|]. split; [reflexivity|].
  refine (proj2 (proj1 (@temporary_file_removed Demo.platform "/docs/a.md" code
                   "/tmp/tmpdoc0.py" (Demo.start []) eq_refl) eq_refl
                   (Raise (TimeoutExpired "timed out after 5 seconds"))
                   (<["/tmp/tmpdoc0.py" := File code]>
                      (fs (os (Demo.start [])))) _) _).
  - vm_compute. reflexivity.
  - rewrite lookup_insert_eq. discriminate.
Defined.

(** C1, as the code has it.  The findings of the syntax check of a Python or
    JavaScript block.  When the subprocess exits with a code other than
    zero, exactly one error is appended, which ends with the captured
    standard error, and no warning; when it exits with zero, nothing is
    appended; when it runs out of time, a warning is appended and no error;
    a skipped block (a placeholder, or JavaScript when [node] cannot be
    started) appends nothing. *)
Theorem syntax_check_findings {platform : Platform}
    (filepath code temp_file : string) (s : State) :
  (* Python *)
  (has_placeholder code = false ->
   mktemp (fs (os s)) ".py" = Some temp_file ->
   forall r files,
     execute ["python"; "-m"; "py_compile"; temp_file] 5
       (<[temp_file := File code]> (fs (os s))) = (r, files) ->
     (forall cp, r = Ok cp -> returncode cp <> 0%Z ->
        new_errors s (_test_python_code filepath code s).2
        = [(filepath, "Python code syntax error:" +:+ Str.nl +:+ stderr cp)]
        /\ new_warnings s (_test_python_code filepath code s).2 = [])
     /\ (forall cp, r = Ok cp -> returncode cp = 0%Z ->
           new_errors s (_test_python_code filepath code s).2 = []
           /\ new_warnings s (_test_python_code filepath code s).2 = [])
     /\ (forall msg, r = Raise (TimeoutExpired msg) ->
           new_errors s (_test_python_code filepath code s).2 = []
           /\ new_warnings s (_test_python_code filepath code s).2
              = [(filepath, "Python code test timed out")]))
  (* JavaScript *)
  /\ (has_placeholder code = false ->
      forall version files0,
        execute ["node"; "--version"] 2 (fs (os s)) = (Ok version, files0) ->
        mktemp files0 ".js" = Some temp_file ->
        forall r files,
          execute ["node"; "--check"; temp_file] 5
            (<[temp_file := File code]> files0) = (r, files) ->
          (forall cp, r = Ok cp -> returncode cp <> 0%Z ->
             new_errors s (_test_javascript_code filepath code s).2
             = [(filepath,
                 "JavaScript code syntax error:" +:+ Str.nl +:+ stderr cp)]
             /\ new_warnings s (_test_javascript_code filepath code s).2 = [])
          /\ (forall cp, r = Ok cp -> returncode cp = 0%Z ->
                new_errors s (_test_javascript_code filepath code s).2 = []
                /\ new_warnings s (_test_javascript_code filepath code s).2
                   = [])
          /\ (forall msg, r = Raise (TimeoutExpired msg) ->
                new_errors s (_test_javascript_code filepath code s).2 = []
                /\ new_warnings s (_test_javascript_code filepath code s).2
                   = [(filepath, "JavaScript code test timed out")]))
  (* Skipped blocks *)
  /\ (has_placeholder code = true ->
      _test_python_code filepath code s = (Ok tt, s)
      /\ _test_javascript_code filepath code s = (Ok tt, s))
  /\ (has_placeholder code = false ->
      forall e files0,
        execute ["node"; "--version"] 2 (fs (os s)) = (Raise e, files0) ->
        (_test_javascript_code filepath code s).1 = Ok tt
        /\ self (_test_javascript_code filepath code s).2 = self s).
Proof.
  split; [|split; [|split]].
  - intros Hcode Htmp r files Hrun.
    rewrite (_test_python_code_run _ _ _ _ Hcode Htmp).
    match goal with
    | |- context [checked_run ?a ?f ?e ?t ?x ?p ?s1] =>
        pose proof (checked_run_findings a f e t x p s1 s r files eq_refl Hrun)
          as [He Hw]
    end.
    rewrite He, Hw. unfold check_findings.
    split; [|split].
    + intros cp -> Hrc. apply Z.eqb_neq in Hrc. rewrite Hrc. auto.
    + intros cp -> Hrc. apply Z.eqb_eq in Hrc. rewrite Hrc. auto.
    + intros msg ->. auto.
  - intros Hcode version files0 Hnode Htmp r files Hrun.
    rewrite (_test_javascript_code_run _ _ _ _ _ _ Hcode Hnode Htmp).
    match goal with
    | |- context [checked_run ?a ?f ?e ?t ?x ?p ?s1] =>
        pose proof (checked_run_findings a f e t x p s1 s r files eq_refl Hrun)
          as [He Hw]
    end.
    rewrite He, Hw. unfold check_findings.
    split; [|split].
    + intros cp -> Hrc. apply Z.eqb_neq in Hrc. rewrite Hrc. auto.
    + intros cp -> Hrc. apply Z.eqb_eq in Hrc. rewrite Hrc. auto.
    + intros msg ->. auto.
  - intros Hcode. split.
    + apply _test_python_code_placeholder, Hcode.
    + apply _test_javascript_code_placeholder, Hcode.
  - intros Hcode e files0 Hnode.
    rewrite (_test_javascript_code_no_node _ _ _ _ _ Hcode Hnode). auto.
Qed.

(** An instance: a Python block with an open parenthesis; the checker of the
    demo platform exits with code 1 and the error carries what it wrote to
    its standard error. *)
Lemma syntax_check_findings_witness :
  let code := "print((1)" in
  let s' := (@_test_python_code Demo.platform "/docs/a.md" code
               (Demo.start [])).2 in
  new_errors (Demo.start []) s'
  = [("/docs/a.md",
      "Python code syntax error:" +:+ Str.nl +:+ "SyntaxError: invalid syntax")]
  /\ new_warnings (Demo.start []) s' = [].
Proof.
  intros code.
  refine (proj1 (proj1 (@syntax_check_findings Demo.platform "/docs/a.md" code
                   "/tmp/tmpdoc0.py" (Demo.start [])) eq_refl eq_refl
                   (Ok (mkCompleted 1 EmptyString "SyntaxError: invalid syntax"))
                   (<["/tmp/tmpdoc0.py" := File code]>
                      (fs (os (Demo.start [])))) _)
            (mkCompleted 1 EmptyString "SyntaxError: invalid syntax")
            eq_refl _).
  - vm_compute. reflexivity.
  - discriminate.
Defined.

(** C1 as stated fails: when the subprocess runs out of time no error is
    appended and the error counter stays at zero; the finding is a
    warning. *)
Lemma timeout_is_not_an_error :
  let code := "time.sleep(60)" in
  let s' := (@_test_python_code Demo.platform "/docs/a.md" code
               (Demo.start [])).2 in
  @execute Demo.platform ["python"; "-m"; "py_compile"; "/tmp/tmpdoc0.py"] 5
    (<["/tmp/tmpdoc0.py" := File code]> (fs (os (Demo.start []))))
  = (Raise (TimeoutExpired "timed out after 5 seconds"),
     <["/tmp/tmpdoc0.py" := File code]> (fs (os (Demo.start []))))
  /\ errors (self s') = []
  /\ Stats.errors (stats (self s')) = 0
  /\ warnings (self s') = [("/docs/a.md", "Python code test timed out")].
Proof. vm_compute. repeat split; reflexivity. Qed.

(** ** The verdict *)

Section Verdict.
Context {platform : Platform}.

(** What [run_all_tests] returns: [False] at once when no markdown file is
    found, else whether the error counter is zero at the end. *)
Lemma run_all_tests_verdict (execute_examples fix_ : bool) (s s' : State)
    (success : bool) :
  run_all_tests execute_examples fix_ s = (Ok success, s') ->
  (glob_md (fs (os s)) (docs_path (self s)) = [] ->
   success = false /\ s' = s)
  /\ (glob_md (fs (os s)) (docs_path (self s)) <> [] ->
      success = (Stats.errors (stats (self s')) =? 0)).
Proof.
  unfold run_all_tests. rewrite !bind_run. cbn [gets].
  rewrite !bind_run. cbn [gets].
  destruct (glob_md (fs (os s)) (docs_path (self s))) as [|f l] eqn:E;
    cbn [is_nil].
  - intros [= <- <-]. split; [auto | congruence].
  - rewrite bind_run.
    destruct (for_each (f :: l) (md_file_step execute_examples fix_) s)
      as [[[]|e] s1]; [|discriminate].
    rewrite bind_run. cbn [gets mret M_ret]. intros [= <- <-].
    split; [discriminate | reflexivity].
Qed.

End Verdict.




(** * Further properties *)

(** ** Relations on the whole state *)

Section Keeps.
Context (R : State -> State -> Prop).
Context {R_pre : PreOrder R}.

Lemma keeps_ret {A : Type} (a : A) : keeps R (mret a).
Proof. intros s. reflexivity. Qed.

Lemma keeps_gets {A : Type} (f : State -> A) : keeps R (gets f).
Proof. intros s. reflexivity. Qed.

Lemma keeps_bind {A B : Type} (m : M A) (f : A -> M B) :
  keeps R m -> (forall a, keeps R (f a)) -> keeps R (m ≫= f).
Proof.
  intros Hm Hf s. rewrite bind_run.
  specialize (Hm s). destruct (m s) as [[a|e] s1]; cbn [snd] in *.
  - etrans; [exact Hm | apply Hf].
  - exact Hm.
Qed.

Lemma keeps_when (c : bool) (m : M unit) : keeps R m -> keeps R (when c m).
Proof. intros Hm. destruct c; [exact Hm | apply keeps_ret]. Qed.

Lemma keeps_for_each {X : Type} (l : list X) (body : X -> M unit) :
  (forall x, keeps R (body x)) -> keeps R (for_each l body).
Proof.
  intros Hb. induction l as [|x l IH]; cbn [for_each].
  - apply keeps_ret.
  - apply keeps_bind; [apply Hb | intros _; exact IH].
Qed.

Lemma keeps_for_fold {X V : Type} (l : list X) (v : V) (body : V -> X -> M V) :
  (forall v x, keeps R (body v x)) -> keeps R (for_fold l v body).
Proof.
  intros Hb. revert v. induction l as [|x l IH]; intros v; cbn [for_fold].
  - apply keeps_ret.
  - apply keeps_bind; [apply Hb | intros v'; apply IH].
Qed.

Lemma keeps_try_except {A : Type} (body : M A) (handler : exn -> option (M A)) :
  keeps R body ->
  (forall e h, handler e = Some h -> keeps R h) ->
  keeps R (try_except body handler).
Proof.
  intros Hb Hh s. unfold try_except.
  specialize (Hb s). destruct (body s) as [[a|e] s1]; cbn [snd] in *; [exact Hb|].
  destruct (handler e) as [h|] eqn:E; cbn [snd]; [|exact Hb].
  etrans; [exact Hb | exact (Hh e h E s1)].
Qed.

Lemma keeps_try_finally {A : Type} (body : M A) (fin : M unit) :
  keeps R body -> keeps R fin -> keeps R (try_finally body fin).
Proof.
  intros Hb Hf s. unfold try_finally.
  specialize (Hb s). destruct (body s) as [r s1]; cbn [snd] in *.
  specialize (Hf s1). destruct (fin s1) as [[[]|e] s2]; cbn [snd] in *;
    etrans; eassumption.
Qed.

Lemma keeps_modify (f : State -> State) :
  (forall s, R s (f s)) -> keeps R (modify f).
Proof. intros H s. exact (H s). Qed.

Lemma keeps_read_text (p : string) : keeps R (read_text p).
Proof.
  intros s. unfold read_text.
  destruct (fs (os s) !! p) as [[c|]|]; reflexivity.
Qed.

Lemma keeps_resolve_path {platform : Platform} (p : string) :
  keeps R (resolve_path p).
Proof. intros s. reflexivity. Qed.

Lemma keeps_exists_ {platform : Platform} (p : string) : keeps R (exists_ p).
Proof. intros s. rewrite exists__state. reflexivity. Qed.

End Keeps.

(** [keeps_step] takes a statement apart as [steady_step] does; the updates
    of the tester and the calls that act on the world are left as goals. *)
Ltac keeps_step :=
  lazymatch goal with
  | |- keeps _ (mret _) => refine (keeps_ret _ _)
  | |- keeps _ (gets _) => refine (keeps_gets _ _)
  | |- keeps _ (read_text _) => refine (keeps_read_text _ _)
  | |- keeps _ (resolve_path _) => refine (keeps_resolve_path _ _)
  | |- keeps _ (exists_ _) => refine (keeps_exists_ _ _)
  | |- keeps _ (_ ≫= _) => refine (keeps_bind _ _ _ _ _); [|intros ?]
  | |- keeps _ (when _ _) => refine (keeps_when _ _ _ _)
  | |- keeps _ (for_each _ _) => refine (keeps_for_each _ _ _ _); intros ?
  | |- keeps _ (for_fold _ _ _) =>
      refine (keeps_for_fold _ _ _ _ _); intros ? ?
  | |- keeps _ (try_finally _ _) => refine (keeps_try_finally _ _ _ _ _)
  | |- keeps _ (try_except _ _) =>
      refine (keeps_try_except _ _ _ _ _);
      [|let e := fresh "e" in
        intros e ? ?; destruct e; simplify_eq]
  | |- keeps _ (if ?c then _ else _) => destruct c
  | |- keeps _ (let '(_, _) := ?p in _) => destruct p
  | |- keeps _ (match ?p with (_, _) => _ end) => destruct p
  end.

(** ** Statements that never raise *)

Section Returns.

Lemma returns_ret {A : Type} (a : A) : returns (mret a : M A).
Proof. intros s. exists a. reflexivity. Qed.

Lemma returns_gets {A : Type} (f : State -> A) : returns (gets f).
Proof. intros s. eexists. reflexivity. Qed.

Lemma returns_modify (f : State -> State) : returns (modify f).
Proof. intros s. eexists. reflexivity. Qed.

Lemma returns_bind {A B : Type} (m : M A) (f : A -> M B) :
  returns m -> (forall a, returns (f a)) -> returns (m ≫= f).
Proof.
  intros Hm Hf s. rewrite bind_run. destruct (Hm s) as [a Ha].
  destruct (m s) as [r s1]. cbn [fst] in Ha. subst r. apply Hf.
Qed.

Lemma returns_when (c : bool) (m : M unit) : returns m -> returns (when c m).
Proof. intros Hm. destruct c; [exact Hm | apply returns_ret]. Qed.

Lemma returns_for_each {X : Type} (l : list X) (body : X -> M unit) :
  (forall x, returns (body x)) -> returns (for_each l body).
Proof.
  intros Hb. induction l as [|x l IH]; cbn [for_each].
  - apply returns_ret.
  - apply returns_bind; [apply Hb | intros _; exact IH].
Qed.

Lemma returns_for_fold {X V : Type} (l : list X) (v : V) (body : V -> X -> M V) :
  (forall v x, returns (body v x)) -> returns (for_fold l v body).
Proof.
  intros Hb. revert v. induction l as [|x l IH]; intros v; cbn [for_fold].
  - apply returns_ret.
  - apply returns_bind; [apply Hb | intros v'; apply IH].
Qed.

End Returns.

Ltac returns_step :=
  lazymatch goal with
  | |- returns (mret _) => apply returns_ret
  | |- returns (gets _) => apply returns_gets
  | |- returns (modify _) => apply returns_modify
  | |- returns (set_stats _) => apply returns_modify
  | |- returns (_add_error _ _) => apply returns_modify
  | |- returns (_add_warning _ _) => apply returns_modify
  | |- returns (_ ≫= _) => apply returns_bind; [|intros ?]
  | |- returns (when _ _) => apply returns_when
  | |- returns (for_each _ _) => apply returns_for_each; intros ?
  | |- returns (for_fold _ _ _) => apply returns_for_fold; intros ? ?
  | |- returns (if ?c then _ else _) => destruct c
  | |- returns (let '(_, _) := ?p in _) => destruct p
  | |- returns (match ?p with (_, _) => _ end) => destruct p
  end.

(** ** The counters of findings and the lists *)

Global Instance balanced_pre : PreOrder balanced.
Proof.
  split.
  - intros a. unfold balanced. lia.
  - intros a b c. unfold balanced. lia.
Qed.

Create HintDb balanced discriminated.

Section Balanced.
Context {platform : Platform}.

Lemma _add_error_balanced (filepath message : string) :
  steady balanced (_add_error filepath message).
Proof.
  refine (steady_modify _ _ _). intros s. unfold balanced.
  cbn [self errors warnings stats Stats.errors Stats.warnings
       Stats.incr_errors]. rewrite length_app. cbn [length]. lia.
Qed.

Lemma _add_warning_balanced (filepath message : string) :
  steady balanced (_add_warning filepath message).
Proof.
  refine (steady_modify _ _ _). intros s. unfold balanced.
  cbn [self errors warnings stats Stats.errors Stats.warnings
       Stats.incr_warnings]. rewrite length_app. cbn [length]. lia.
Qed.

Lemma set_stats_balanced (f : Stats.t -> Stats.t) :
  (forall a, Stats.errors (f a) = Stats.errors a
             /\ Stats.warnings (f a) = Stats.warnings a) ->
  steady balanced (set_stats f).
Proof.
  intros Hf. refine (steady_modify _ _ _). intros s. unfold balanced.
  cbn [self errors warnings stats]. destruct (Hf (stats (self s))). lia.
Qed.

End Balanced.

Global Hint Resolve _add_error_balanced _add_warning_balanced : balanced.
Global Hint Extern 1 (steady balanced (set_stats _)) =>
  apply set_stats_balanced; intros ?; split; reflexivity : balanced.

Ltac balanced_tac :=
  repeat first [ solve [auto with balanced] | steady_step ].

Section BalancedRun.
Context {platform : Platform}.

Lemma run_all_tests_balanced (execute_examples fix_ : bool) :
  steady balanced (run_all_tests execute_examples fix_).
Proof.
  unfold run_all_tests, md_file_step, _check_markdown_syntax, heading_step,
    _check_links, link_step, _check_common_issues, long_line_step,
    _test_code_examples, code_block_step, _test_python_code,
    _test_javascript_code, _test_bash_code.
  balanced_tac.
Qed.

Lemma balanced_counted (a b : DocumentationTester) :
  balanced a b -> counted a -> counted b.
Proof. unfold balanced, counted. lia. Qed.


End BalancedRun.


Section ExitZero.
Context {platform : Platform}.

(** A run that exits with status 0 is one whose [run_all_tests] returned
    [True]. *)
Lemma main_exit_zero (args : Args) (w w' : World) (t : DocumentationTester) :
  main args w = (Exit 0, Some t, w') ->
  run_all_tests (if all args then true else execute_examples args)
    (fix_ args) (mkState (init (Path_ (path args))) w)
  = (Ok true, mkState t w').
Proof.
  unfold main. cbv zeta.
  destruct (negb (path_exists w (Path_ (path args)))); [discriminate|].
  unfold main_body. cbv zeta. rewrite bind_run.
  destruct (run_all_tests _ (fix_ args) _) as [[success|e] [t1 w1]];
    [|discriminate].
  rewrite bind_run.
  destruct (if all args then true else check_links args).
  - rewrite bind_run.
    pose proof (check_external_links_unchanged (Path_ (path args))
                  (mkState t1 w1)) as Hsame.
    destruct (check_external_links _ _) as [[broken|e] s2]; cbn [snd] in Hsame;
      subst s2; [|discriminate].
    destruct (negb (is_nil broken)); cbn [mret M_ret]; [discriminate|].
    destruct success; [|discriminate]. intros [= <- <-]. reflexivity.
  - cbn [mret M_ret]. destruct success; [|discriminate].
    intros [= <- <-]. reflexivity.
Qed.

End ExitZero.

(** X2. Exit status 0 means that nothing was recorded as an error: when
    [main] ends with [sys.exit(0)], at least one markdown file was found, the
    list of errors of the tester is empty and its error counter is zero. *)
Theorem exit_zero_has_no_error {platform : Platform} (args : Args)
    (w w' : World) (t : DocumentationTester) :
  main args w = (Exit 0, Some t, w') ->
  errors t = []
  /\ Stats.errors (stats t) = 0
  /\ is_nil (glob_md (fs w) (Path_ (path args))) = false.
Proof.
  intros Hmain. apply main_exit_zero in Hmain as Hrun.
  pose proof (run_all_tests_balanced
                (if all args then true else execute_examples args)
                (fix_ args) (mkState (init (Path_ (path args))) w)) as Hb.
  rewrite Hrun in Hb. cbn [snd self] in Hb.
  assert (counted t) as [Hc _]
    by (apply (balanced_counted _ _ Hb); split; reflexivity).
  apply run_all_tests_verdict in Hrun as [Hnone Hsome].
  cbn [os self fs init docs_path] in Hnone, Hsome.
  destruct (glob_md (fs w) (Path_ (path args))) as [|f l].
  - destruct (Hnone eq_refl) as [[=] _].
  - assert (Stats.errors (stats t) = 0) as Hz.
    { symmetry in Hsome. apply Nat.eqb_eq. apply Hsome. discriminate. }
    split; [|split; [exact Hz | reflexivity]].
    rewrite Hz in Hc. destruct (errors t); [reflexivity | discriminate].
Qed.

(** An instance: the run over one clean document. *)
Lemma exit_zero_has_no_error_witness :
  let args := mkArgs "/docs" true false false false in
  let w := Demo.world [("/docs/README.md", "# Title")] in
  let t := mkTester "/docs" [] [] (Stats.mk 1 0 0 0 0) in
  @main Demo.platform args w = (Exit 0, Some t, w)
  /\ errors t = [].
Proof.
  intros args w t.
  assert (@main Demo.platform args w = (Exit 0, Some t, w)) as Hmain
    by (vm_compute; reflexivity).
  split; [exact Hmain|].
  exact (proj1 (@exit_zero_has_no_error Demo.platform args w w t Hmain)).
Defined.

(** ** Checks that never fail a run, and checks that start nothing *)

Global Instance same_errors_pre : PreOrder same_errors.
Proof.
  split.
  - intros a. split; reflexivity.
  - intros a b c [H1 H2] [H3 H4]. split; congruence.
Qed.

Global Instance same_world_pre : PreOrder same_world.
Proof.
  split.
  - intros s. reflexivity.
  - intros a b c. unfold same_world. congruence.
Qed.

Ltac same_errors_tac :=
  repeat first
    [ steady_step
    | refine (steady_modify _ _ _); intros ?; split; reflexivity ].

Ltac same_world_tac :=
  repeat first
    [ keeps_step
    | refine (keeps_modify _ _ _); intros ?; reflexivity ].

Ltac returns_tac := repeat returns_step.

Section Quiet.

Lemma _check_common_issues_same_errors (filepath content : string) :
  steady same_errors (_check_common_issues filepath content).
Proof. unfold _check_common_issues, long_line_step. same_errors_tac. Qed.

Lemma _test_bash_code_same_errors (filepath code : string) :
  steady same_errors (_test_bash_code filepath code).
Proof. unfold _test_bash_code. same_errors_tac. Qed.

Lemma _check_common_issues_returns (filepath content : string) :
  returns (_check_common_issues filepath content).
Proof. unfold _check_common_issues, long_line_step. returns_tac. Qed.

Lemma _test_bash_code_returns (filepath code : string) :
  returns (_test_bash_code filepath code).
Proof. unfold _test_bash_code. returns_tac. Qed.

Lemma _check_markdown_syntax_returns (filepath content : string) :
  returns (_check_markdown_syntax filepath content).
Proof. unfold _check_markdown_syntax, heading_step. returns_tac. Qed.

Lemma _check_common_issues_same_world (filepath content : string) :
  keeps same_world (_check_common_issues filepath content).
Proof. unfold _check_common_issues, long_line_step. same_world_tac. Qed.

Lemma _test_bash_code_same_world (filepath code : string) :
  keeps same_world (_test_bash_code filepath code).
Proof. unfold _test_bash_code. same_world_tac. Qed.

Lemma _check_markdown_syntax_same_world (filepath content : string) :
  keeps same_world (_check_markdown_syntax filepath content).
Proof. unfold _check_markdown_syntax, heading_step. same_world_tac. Qed.

Lemma returns_unit (m : M unit) (s : State) : returns m -> (m s).1 = Ok tt.
Proof. intros H. destruct (H s) as [[] E]. exact E. Qed.

End Quiet.

Section QuietLinks.
Context {platform : Platform}.

Lemma _check_links_same_world (filepath content : string) (fix_ : bool) :
  keeps same_world (_check_links filepath content fix_).
Proof. unfold _check_links, link_step. same_world_tac. Qed.

Lemma md_file_step_same_world (fix_ : bool) (md_file : string) :
  keeps same_world (md_file_step false fix_ md_file).
Proof.
  pose proof _check_markdown_syntax_same_world.
  pose proof _check_links_same_world.
  pose proof _check_common_issues_same_world.
  unfold md_file_step. cbn [when].
  repeat first
    [ solve [auto]
    | keeps_step
    | refine (keeps_modify _ _ _); intros ?; reflexivity ].
Qed.

Lemma run_all_tests_same_world (fix_ : bool) :
  keeps same_world (run_all_tests false fix_).
Proof.
  pose proof md_file_step_same_world.
  unfold run_all_tests.
  repeat first [ solve [auto] | keeps_step ].
Qed.

End QuietLinks.

(** X3. The style checks never fail a run.  [_check_common_issues] (TODO
    markers, long lines, doubled words) and [_test_bash_code] (unmatched
    quotes) always return, leave the world alone, and only ever warn: the
    list of errors and the error counter are after the call what they were
    before it, whatever the text. *)
Theorem style_checks_only_warn (filepath text : string) (s : State) :
  ((_check_common_issues filepath text s).1 = Ok tt
   /\ os (_check_common_issues filepath text s).2 = os s
   /\ errors (self (_check_common_issues filepath text s).2) = errors (self s)
   /\ Stats.errors (stats (self (_check_common_issues filepath text s).2))
      = Stats.errors (stats (self s)))
  /\ ((_test_bash_code filepath text s).1 = Ok tt
      /\ os (_test_bash_code filepath text s).2 = os s
      /\ errors (self (_test_bash_code filepath text s).2) = errors (self s)
      /\ Stats.errors (stats (self (_test_bash_code filepath text s).2))
         = Stats.errors (stats (self s))).
Proof.
  split.
  - split; [apply returns_unit, _check_common_issues_returns|].
    split; [apply _check_common_issues_same_world|].
    apply _check_common_issues_same_errors.
  - split; [apply returns_unit, _test_bash_code_returns|].
    split; [apply _test_bash_code_same_world|].
    apply _test_bash_code_same_errors.
Qed.

(** X4. Without the option to execute examples nothing is started and
    nothing is written.  The structural check always returns and leaves the
    world alone; the link check leaves the world alone, whether it returns
    or raises; [run_all_tests] without [execute_examples] leaves the world
    as it found it, whether it returns or raises; and so does [main] without
    [--execute-examples] and [--all], with or without the check of external
    links: no command line was handed to a subprocess and the file system is
    the same. *)
Theorem nothing_runs_without_the_option {platform : Platform} :
  (forall filepath content fix_ s,
     (_check_markdown_syntax filepath content s).1 = Ok tt
     /\ os (_check_markdown_syntax filepath content s).2 = os s
     /\ os (_check_links filepath content fix_ s).2 = os s)
  /\ (forall fix_ s, os (run_all_tests false fix_ s).2 = os s)
  /\ (forall path check_links fix_ w,
        (main (mkArgs path false check_links fix_ false) w).2 = w).
Proof.
  split.
  { intros filepath content f s.
    split; [apply returns_unit, _check_markdown_syntax_returns|].
    split; [apply _check_markdown_syntax_same_world|].
    apply _check_links_same_world. }
  split; [intros f s; apply run_all_tests_same_world|].
  intros p cl f w. unfold main. cbv zeta. cbn [path all execute_examples fix_].
  destruct (negb (path_exists w (Path_ p))); [reflexivity|].
  unfold main_body. cbv zeta. cbn [path all execute_examples fix_].
  rewrite bind_run.
  pose proof (run_all_tests_same_world f (mkState (init (Path_ p)) w)) as Hw.
  destruct (run_all_tests false f _) as [[success|e] s1];
    unfold same_world in Hw; cbn [snd os] in Hw; [|exact Hw].
  rewrite bind_run. destruct cl; cbn [check_links]; [|exact Hw].
  rewrite bind_run.
  pose proof (check_external_links_unchanged (Path_ p) s1) as Hsame.
  destruct (check_external_links _ s1) as [[broken|e] s2];
    cbn [snd] in Hsame; subst s2; [|exact Hw].
  destruct (negb (is_nil broken)); exact Hw.
Qed.

(** ** The files of a run *)

Global Instance same_files_checked_pre : PreOrder same_files_checked.
Proof.
  split.
  - intros a. reflexivity.
  - intros a b c. unfold same_files_checked. congruence.
Qed.

Ltac same_files_checked_tac :=
  repeat first
    [ steady_step
    | refine (steady_modify _ _ _); intros ?; reflexivity ].

Section Files.
Context {platform : Platform}.

(** A skipped file is passed over: nothing is read, counted or checked. *)
Lemma md_file_step_skipped (execute_examples fix_ : bool) (md_file : string)
    (s : State) :
  skipped md_file = true ->
  md_file_step execute_examples fix_ md_file s = (Ok tt, s).
Proof. unfold skipped, md_file_step. intros ->. reflexivity. Qed.

Lemma for_each_skipped (execute_examples fix_ : bool) (l : list string)
    (s : State) :
  forallb skipped l = true ->
  for_each l (md_file_step execute_examples fix_) s = (Ok tt, s).
Proof.
  induction l as [|f l IH]; cbn [forallb for_each]; [reflexivity|].
  intros [Hf Hl]%andb_prop. rewrite bind_run, (md_file_step_skipped _ _ _ _ Hf).
  apply IH, Hl.
Qed.

(** The checks of one document leave the counter of files alone. *)
Lemma checks_same_files_checked (execute_examples fix_ : bool)
    (md_file content : string) :
  steady same_files_checked
    (_check_markdown_syntax md_file content ;;
     _check_links md_file content fix_ ;;
     _check_common_issues md_file content ;;
     when execute_examples (_test_code_examples md_file content)).
Proof.
  unfold _check_markdown_syntax, heading_step, _check_links, link_step,
    _check_common_issues, long_line_step, _test_code_examples,
    code_block_step, _test_python_code, _test_javascript_code,
    _test_bash_code.
  same_files_checked_tac.
Qed.

(** One turn of the loop over the files adds one to the counter for a file
    that is not skipped, also when the file cannot be read or a check
    raises. *)
Lemma md_file_step_files_checked (execute_examples fix_ : bool)
    (md_file : string) (s : State) :
  Stats.files_checked
    (stats (self (md_file_step execute_examples fix_ md_file s).2))
  = Stats.files_checked (stats (self s))
    + (if skipped md_file then 0 else 1).
Proof.
  destruct (skipped md_file) eqn:E.
  - rewrite (md_file_step_skipped _ _ _ _ E). cbn [snd]. lia.
  - unfold md_file_step. unfold skipped in E. rewrite E.
    rewrite bind_run. cbn [set_stats modify].
    set (s1 := mkState _ (os s)).
    assert (Stats.files_checked (stats (self s1))
            = Stats.files_checked (stats (self s)) + 1) as <- by reflexivity.
    rewrite bind_run. pose proof (read_text_self md_file s1) as Hread.
    destruct (read_text md_file s1) as [[content|e] s2]; cbn [snd] in Hread |- *;
      [|rewrite Hread; reflexivity].
    symmetry. rewrite <- Hread.
    apply (checks_same_files_checked execute_examples fix_ md_file content s2).
Qed.

Lemma for_each_files_checked (execute_examples fix_ : bool) (l : list string)
    (s s' : State) :
  for_each l (md_file_step execute_examples fix_) s = (Ok tt, s') ->
  Stats.files_checked (stats (self s'))
  = Stats.files_checked (stats (self s))
    + length (List.filter (fun f => negb (skipped f)) l).
Proof.
  revert s. induction l as [|f l IH]; intros s; cbn [for_each List.filter].
  - intros [= <-]. cbn [length]. lia.
  - rewrite bind_run.
    pose proof (md_file_step_files_checked execute_examples fix_ f s) as Hf.
    destruct (md_file_step execute_examples fix_ f s) as [[[]|e] s1];
      [|discriminate].
    intros Hrest. apply IH in Hrest. cbn [snd] in Hf.
    destruct (skipped f); cbn [negb length]; lia.
Qed.


End Files.

(** X5. A tree in which every markdown file is passed over passes.  When the
    root exists, [glob] finds at least one markdown file, every file it finds
    has [node_modules] or [.git] in its path, and the external links are not
    checked, [main] exits with status 0 and leaves the tester as it was
    created (no file counted, no finding) and the world as it was: no file
    was read. *)
Theorem skipped_tree_passes {platform : Platform} (args : Args) (w : World) :
  path_exists w (Path_ (path args)) = true ->
  is_nil (glob_md (fs w) (Path_ (path args))) = false ->
  forallb skipped (glob_md (fs w) (Path_ (path args))) = true ->
  (if all args then true else check_links args) = false ->
  main args w = (Exit 0, Some (init (Path_ (path args))), w).
Proof.
  intros Hroot Hsome Hskip Hlinks. unfold main. cbv zeta. rewrite Hroot.
  cbn [negb]. unfold main_body. cbv zeta. rewrite Hlinks.
  rewrite bind_run. unfold run_all_tests.
  rewrite !bind_run. cbn [gets os self fs init docs_path].
  rewrite !bind_run. cbn [gets os self fs init docs_path].
  rewrite Hsome, bind_run, (for_each_skipped _ _ _ _ Hskip).
  reflexivity.
Qed.

(** An instance: the only markdown file lies under [node_modules], has two
    first-level headings and an open fence, and the run passes. *)
Lemma skipped_tree_passes_witness :
  let args := mkArgs "/docs" true false false false in
  let w :=
    Demo.world
      [("/docs/node_modules/pkg/README.md",
        Demo.lines ["# One"; "# Two"; "```python"; "print((1)"])] in
  @main Demo.platform args w = (Exit 0, Some (init "/docs"), w).
Proof.
  intros args w.
  exact (@skipped_tree_passes Demo.platform args w eq_refl eq_refl eq_refl
           eq_refl).
Defined.

(** X6. The counter of files counts the files that are not passed over.  A
    call of [run_all_tests] that returns has added to [files_checked] the
    number of markdown files found by [glob] whose path holds neither
    [node_modules] nor [.git]; each such file is counted before it is read,
    so also when reading it fails. *)
Theorem files_checked_counts_unskipped {platform : Platform}
    (execute_examples fix_ : bool) (s s' : State) (success : bool) :
  run_all_tests execute_examples fix_ s = (Ok success, s') ->
  Stats.files_checked (stats (self s'))
  = Stats.files_checked (stats (self s))
    + length (List.filter (fun f => negb (skipped f))
                (glob_md (fs (os s)) (docs_path (self s))))
  /\ (forall md_file s0,
        Stats.files_checked
          (stats (self (md_file_step execute_examples fix_ md_file s0).2))
        = Stats.files_checked (stats (self s0))
          + (if skipped md_file then 0 else 1)).
Proof.
  intros Hrun. split; [|intros; apply md_file_step_files_checked].
  revert Hrun. unfold run_all_tests.
  rewrite !bind_run. cbn [gets]. rewrite !bind_run. cbn [gets].
  destruct (glob_md (fs (os s)) (docs_path (self s))) as [|f l];
    cbn [is_nil].
  - intros [= _ <-]. cbn [List.filter length]. lia.
  - rewrite bind_run.
    destruct (for_each (f :: l) (md_file_step execute_examples fix_) s)
      as [[[]|e] s1] eqn:Hloop; [|discriminate].
    rewrite bind_run. cbn [gets mret M_ret]. intros [= _ <-].
    apply (for_each_files_checked _ _ _ _ _ Hloop).
Qed.

(** An instance: of three markdown files one lies under [.git]; two are
    counted. *)
Lemma files_checked_counts_unskipped_witness :
  let s :=
    Demo.start
      [("/docs/a.md", "# A"); ("/docs/.git/info.md", "# G");
       ("/docs/sub/b.md", "# B")] in
  (@run_all_tests Demo.platform false false s).1 = Ok true
  /\ Stats.files_checked
       (stats (self (@run_all_tests Demo.platform false false s).2)) = 0 + 2.
Proof.
  intros s. split; [reflexivity|].
  refine (proj1 (@files_checked_counts_unskipped Demo.platform false false s
                   (@run_all_tests Demo.platform false false s).2 true _)).
  vm_compute. reflexivity.
Defined.



(** ** Links *)

(** X8. The counter of links counts every link the check reaches,
    whatever its kind.  When [_check_links] returns, it has added to
    [links_checked] the number of matches of the link pattern in the
    document; whether it returns or raises, it appends no warning.  Every
    link is counted before it is examined, also the one whose examination
    raises; a link that is an anchor, an external link or a mail address is
    counted like the others and appends nothing. *)
Theorem links_checked_counts_every_link {platform : Platform}
    (filepath content : string) (fix_ : bool) (s : State) :
  ((_check_links filepath content fix_ s).1 = Ok tt ->
   Stats.links_checked (stats (self (_check_links filepath content fix_ s).2))
   = Stats.links_checked (stats (self s))
     + length (Re.findall Re.link content))
  /\ warnings (self (_check_links filepath content fix_ s).2)
     = warnings (self s)
  /\ (forall link,
        Stats.links_checked (stats (self (link_step filepath fix_ link s).2))
        = Stats.links_checked (stats (self s)) + 1)
  /\ (forall link_text target,
        is_local target = false ->
        link_step filepath fix_ (link_text, target) s
        = (Ok tt, after_link s [])).
Proof.
  unfold _check_links.
  destruct (for_each_link_step filepath fix_ (Re.findall Re.link content) s)
    as (_ & Hw & Hr).
  split; [intros H; exact (proj2 (Hr H))|]. split; [exact Hw|].
  split.
  - intros link.
    destruct (link_step_counts filepath fix_ link s) as (e & -> & _).
    reflexivity.
  - intros link_text target. apply link_step_not_local.
Qed.

(** An instance: a document with an anchor, an external link and a local
    link to a file that is there; the check returns and has counted three
    links. *)
Lemma links_checked_counts_every_link_witness :
  let content := "[a](#top) [b](https://example.org) [c](other.md)" in
  let s := Demo.start [("/docs/guide.md", content); ("/docs/other.md", "x")] in
  (@_check_links Demo.platform "/docs/guide.md" content false s).1 = Ok tt
  /\ Stats.links_checked
       (stats
          (self (@_check_links Demo.platform "/docs/guide.md" content false s).2))
     = 3.
Proof.
  split; [vm_compute; reflexivity|].
  exact (proj1
    (@links_checked_counts_every_link Demo.platform "/docs/guide.md"
       "[a](#top) [b](https://example.org) [c](other.md)" false
       (Demo.start
          [("/docs/guide.md",
            "[a](#top) [b](https://example.org) [c](other.md)");
           ("/docs/other.md", "x")]))
    ltac:(vm_compute; reflexivity)).
Defined.

(** X14. The check of one local link (a target that is no anchor, no
    external link and no mail address), by what the system answers.  The
    path resolved is the target against the directory of the document, or,
    for a target that starts with [/], the target without its leading
    separators against the root.  When resolving raises, the step raises
    the same exception.  Otherwise the resolved path is cut at its first
    [#], if it has one, and read as a path again; when examining that path
    raises, the step raises the same exception; otherwise the step returns,
    and it has appended exactly one [Broken link] error for this document,
    naming the target as written and the path examined, when that path is
    not there, and nothing when it is.  In all three cases the link is
    counted and no warning is appended. *)
Theorem local_link_step {platform : Platform}
    (filepath link_text target : string) (fix_ : bool) (s : State) :
  is_local target = true ->
  let resolved :=
    resolve (fs (os s))
      (if Str.startswith target "/"
       then joinpath (docs_path (self s)) (Str.lstrip_char "/" target)
       else joinpath (parent filepath) target) in
  let examined (p : string) :=
    if Str.contains "#" p then Path_ (Str.before "#" p) else p in
  (forall e,
     resolved = Raise e ->
     link_step filepath fix_ (link_text, target) s
     = (Raise e, after_link s []))
  /\ (forall p e,
        resolved = Ok p ->
        stat_error (fs (os s)) (examined p) = Some e ->
        link_step filepath fix_ (link_text, target) s
        = (Raise e, after_link s []))
  /\ (forall p,
        resolved = Ok p ->
        stat_error (fs (os s)) (examined p) = None ->
        link_step filepath fix_ (link_text, target) s
        = (Ok tt,
           after_link s
             (if path_exists (os s) (examined p) then []
              else [(filepath,
                     "Broken link: " +:+ target +:+ " -> "
                     +:+ examined p)]))).
Proof.
  intros Hlocal resolved examined.
  rewrite (link_step_local filepath fix_ link_text target s Hlocal).
  unfold link_check, checked_path, strip_anchor.
  assert ((if Str.startswith target "/"
           then resolve (fs (os s))
                  (joinpath (docs_path (self s)) (Str.lstrip_char "/" target))
           else resolve (fs (os s)) (joinpath (parent filepath) target))
          = resolved) as ->.
  { unfold resolved. destruct (Str.startswith target "/"); reflexivity. }
  split; [intros e ->; reflexivity|].
  split.
  - intros p e -> He. fold (examined p). rewrite He. reflexivity.
  - intros p -> He. fold (examined p). rewrite He. reflexivity.
Qed.

(** An instance: in [/docs/guide.md] the link to [./missing.md] is examined
    at [/docs/missing.md]; the file is absent and one error is appended. *)
Lemma local_link_step_witness :
  let s := Demo.start [("/docs/guide.md", "[m](./missing.md)")] in
  is_local "./missing.md" = true
  /\ @link_step Demo.platform "/docs/guide.md" false ("m", "./missing.md") s
     = (Ok tt,
        after_link s
          [("/docs/guide.md",
            "Broken link: ./missing.md -> /docs/missing.md")]).
Proof.
  split; [reflexivity|].
  exact (proj2 (proj2
    (@local_link_step Demo.platform "/docs/guide.md" "m" "./missing.md" false
       (Demo.start [("/docs/guide.md", "[m](./missing.md)")]) eq_refl))
    "/docs/missing.md" eq_refl eq_refl).
Defined.

(** X15. The errors of a link check that returns.  When [_check_links]
    returns, the errors the tester had are still there, in place, followed
    by the errors of the local links of the document in the order of the
    links, one for each local link whose examined path is not there; the
    counter of errors grew by their number. *)
Theorem link_errors_in_order {platform : Platform}
    (filepath content : string) (fix_ : bool) (s : State) :
  (_check_links filepath content fix_ s).1 = Ok tt ->
  errors (self (_check_links filepath content fix_ s).2)
  = errors (self s)
    ++ broken_links (os s) (docs_path (self s)) filepath
         (Re.findall Re.link content)
  /\ (forall link_text target,
        In (link_text, target) (Re.findall Re.link content) ->
        is_local target = true ->
        exists p,
          checked_path (fs (os s)) (docs_path (self s)) filepath target = Ok p
          /\ stat_error (fs (os s)) p = None
          /\ broken_link (os s) (docs_path (self s)) filepath target
             = (if path_exists (os s) p then []
                else [(filepath,
                       "Broken link: " +:+ target +:+ " -> " +:+ p)])).
Proof.
  unfold _check_links. intros Hr.
  destruct (for_each_link_step filepath fix_ (Re.findall Re.link content) s)
    as (_ & _ & H).
  split; [exact (proj1 (H Hr))|].
  intros link_text target Hin Hlocal.
  pose proof (for_each_reaches filepath fix_ _ s Hr _ Hin) as Hok.
  cbn [snd] in Hok. destruct (Hok Hlocal) as [e He]. clear Hok.
  unfold broken_link, link_check in *.
  destruct (checked_path _ _ _ _) as [p|x]; [|discriminate].
  exists p. destruct (stat_error _ p); [discriminate|].
  split; [reflexivity|]. split; reflexivity.
Qed.

(** An instance: the links to [a.md], absent, to [b.md], there, and to
    [c.md], absent, give two errors, in that order. *)
Lemma link_errors_in_order_witness :
  let content := "[a](a.md) [b](b.md) [c](c.md)" in
  let s := Demo.start [("/docs/guide.md", content); ("/docs/b.md", "x")] in
  (@_check_links Demo.platform "/docs/guide.md" content false s).1 = Ok tt
  /\ errors
       (self (@_check_links Demo.platform "/docs/guide.md" content false s).2)
     = [("/docs/guide.md", "Broken link: a.md -> /docs/a.md");
        ("/docs/guide.md", "Broken link: c.md -> /docs/c.md")].
Proof.
  split; [vm_compute; reflexivity|].
  exact (proj1
    (@link_errors_in_order Demo.platform "/docs/guide.md"
       "[a](a.md) [b](b.md) [c](c.md)" false
       (Demo.start
          [("/docs/guide.md", "[a](a.md) [b](b.md) [c](c.md)");
           ("/docs/b.md", "x")])
       ltac:(vm_compute; reflexivity))).
Defined.

Section Healthy.
Context {platform : Platform}.
Context (healthy : forall url, exists n, requests_head url = Ok n /\ n < 400).

Lemma external_link_step_healthy (md_file : string) (link : string * string)
    (s : State) :
  external_link_step md_file [] link s = (Ok [], s).
Proof.
  destruct link as [link_text url].
  unfold external_link_step, try_except, head_status_code.
  rewrite bind_run. destruct (healthy url) as (n & -> & Hn).
  apply Nat.leb_gt in Hn. rewrite Hn. reflexivity.
Qed.

Lemma links_healthy (md_file : string) (links : list (string * string))
    (s : State) :
  for_fold links [] (external_link_step md_file) s = (Ok [], s).
Proof.
  induction links as [|link links IH]; cbn [for_fold]; [reflexivity|].
  rewrite bind_run, external_link_step_healthy. exact IH.
Qed.

Lemma files_healthy (md_files : list string) (s s' : State)
    (broken : list Broken) :
  for_fold md_files []
    (fun broken_links md_file =>
       if Str.contains "node_modules" md_file then mret broken_links
       else
         content ← read_text md_file;
         for_fold (Re.findall Re.external_link content) broken_links
           (external_link_step md_file)) s
  = (Ok broken, s') ->
  broken = [].
Proof.
  revert s. induction md_files as [|f l IH]; intros s; cbn [for_fold].
  - intros [= <- _]. reflexivity.
  - rewrite bind_run.
    destruct (Str.contains "node_modules" f).
    + cbn [mret M_ret]. apply IH.
    + rewrite bind_run.
      destruct (read_text f s) as [[content|e] s1]; [|discriminate].
      rewrite links_healthy. apply IH.
Qed.

End Healthy.

(** X9. The sweep over the external links.  It changes neither the tester
    nor the world, so a broken external link never enters the findings or
    the counters of the tester; without [requests] it reports nothing and
    reads no file; and on a network where every request is answered with a
    status below 400, a sweep that returns reports no broken link. *)
Theorem external_sweep {platform : Platform} (docs_path : string) (s : State) :
  (check_external_links docs_path s).2 = s
  /\ (requests_installed = false ->
      check_external_links docs_path s = (Ok [], s))
  /\ ((forall url, exists n, requests_head url = Ok n /\ n < 400) ->
      forall broken s',
        check_external_links docs_path s = (Ok broken, s') -> broken = []).
Proof.
  split; [apply check_external_links_unchanged|].
  split.
  - intros E. unfold check_external_links. rewrite E. reflexivity.
  - intros healthy broken s'. unfold check_external_links.
    destruct requests_installed; cbn [negb].
    + rewrite bind_run. cbn [gets]. apply (files_healthy healthy).
    + intros [= <- _]. reflexivity.
Qed.

(** An instance: on the healthy network a document with an external link. *)
Lemma external_sweep_witness :
  let s := Demo.start [("/docs/a.md", "[home](https://example.org/gone)")] in
  @check_external_links healthy_platform "/docs" s = (Ok [], s).
Proof.
  intros s.
  assert (forall url, exists n, @requests_head healthy_platform url = Ok n
                                /\ n < 400) as healthy
    by (intros url; exists 200; split; [reflexivity | lia]).
  pose proof (@external_sweep healthy_platform "/docs" s)
    as (Hsame & _ & Hnone).
  destruct (@check_external_links healthy_platform "/docs" s)
    as [[broken|e] s'] eqn:E.
  - cbn [snd] in Hsame. rewrite (Hnone healthy broken s' eq_refl), Hsame.
    reflexivity.
  - exfalso. revert E. vm_compute. discriminate.
Defined.

(** ** The checkers when the subprocess fails *)

Section Failures.
Context {platform : Platform}.

(** The outcome of the shared block when [unlink] has a file or nothing to
    remove. *)
Lemma checked_run_outcome (argv : list string)
    (filepath error_text timeout_text failure_text temp_file : string)
    (s : State) (r : result CompletedProcess) (files : gmap string node) :
  execute argv 5 (fs (os s)) = (r, files) ->
  files !! temp_file <> Some Dir ->
  (checked_run argv filepath error_text timeout_text failure_text temp_file s).1
  = match r with
    | Raise KeyboardInterrupt => Raise KeyboardInterrupt
    | _ => Ok tt
    end
  /\ self (checked_run argv filepath error_text timeout_text failure_text
             temp_file s).2
     = with_findings (self s)
         (check_findings filepath error_text timeout_text failure_text r).
Proof.
  intros Hrun Hdir. rewrite (checked_run_spec _ _ _ _ _ _ _ _ _ Hrun).
  cbn [fst snd self]. split; [|reflexivity].
  unfold unlinked, checked_result.
  destruct (files !! temp_file) as [[c|]|]; [| congruence |];
    destruct r as [cp|[]]; reflexivity.
Qed.

End Failures.

(** X10. What a checker does when its subprocess cannot be run.  For a
    Python or JavaScript block that is checked (no placeholder, [node]
    answered for JavaScript, the temporary file created and not replaced by
    a directory): when [subprocess.run] raises an exception of class
    [Exception] other than a timeout (the interpreter is missing, say), the
    checker returns normally with one warning [Could not test ... code]
    that ends with the text of the exception, and no error; when it is
    interrupted from the keyboard, the interrupt leaves the checker and no
    finding is appended; for every other outcome the checker returns
    normally. *)
Theorem checker_when_subprocess_fails {platform : Platform}
    (filepath code temp_file : string) (s : State) :
  has_placeholder code = false ->
  (mktemp (fs (os s)) ".py" = Some temp_file ->
   forall r files,
     execute ["python"; "-m"; "py_compile"; temp_file] 5
       (<[temp_file := File code]> (fs (os s))) = (r, files) ->
     files !! temp_file <> Some Dir ->
     (forall msg, r = Raise (Exception msg) ->
        (_test_python_code filepath code s).1 = Ok tt
        /\ new_errors s (_test_python_code filepath code s).2 = []
        /\ new_warnings s (_test_python_code filepath code s).2
           = [(filepath, "Could not test Python code: " +:+ msg)])
     /\ (r = Raise KeyboardInterrupt ->
         (_test_python_code filepath code s).1 = Raise KeyboardInterrupt
         /\ errors (self (_test_python_code filepath code s).2)
            = errors (self s)
         /\ warnings (self (_test_python_code filepath code s).2)
            = warnings (self s))
     /\ (r <> Raise KeyboardInterrupt ->
         (_test_python_code filepath code s).1 = Ok tt))
  /\ (forall version files0,
        execute ["node"; "--version"] 2 (fs (os s)) = (Ok version, files0) ->
        mktemp files0 ".js" = Some temp_file ->
        forall r files,
          execute ["node"; "--check"; temp_file] 5
            (<[temp_file := File code]> files0) = (r, files) ->
          files !! temp_file <> Some Dir ->
          (forall msg, r = Raise (Exception msg) ->
             (_test_javascript_code filepath code s).1 = Ok tt
             /\ new_errors s (_test_javascript_code filepath code s).2 = []
             /\ new_warnings s (_test_javascript_code filepath code s).2
                = [(filepath, "Could not test JavaScript code: " +:+ msg)])
          /\ (r = Raise KeyboardInterrupt ->
              (_test_javascript_code filepath code s).1
              = Raise KeyboardInterrupt
              /\ errors (self (_test_javascript_code filepath code s).2)
                 = errors (self s)
              /\ warnings (self (_test_javascript_code filepath code s).2)
                 = warnings (self s))
          /\ (r <> Raise KeyboardInterrupt ->
              (_test_javascript_code filepath code s).1 = Ok tt)).
Proof.
  intros Hcode. split.
  - intros Htmp r files Hrun Hdir.
    rewrite (_test_python_code_run _ _ _ _ Hcode Htmp).
    match goal with
    | |- context [checked_run ?a ?f ?e ?t ?x ?p ?s1] =>
        destruct (checked_run_outcome a f e t x p s1 r files Hrun Hdir)
          as [Hres Hself];
        destruct (checked_run_findings a f e t x p s1 s r files eq_refl Hrun)
          as [He Hw]
    end.
    rewrite Hres, He, Hw, Hself. split; [|split].
    + intros msg ->. repeat split; reflexivity.
    + intros ->. cbn [self with_findings check_findings fst snd errors warnings].
      rewrite !app_nil_r. repeat split; reflexivity.
    + intros Hr. destruct r as [cp|[]]; try reflexivity. congruence.
  - intros version files0 Hnode Htmp r files Hrun Hdir.
    rewrite (_test_javascript_code_run _ _ _ _ _ _ Hcode Hnode Htmp).
    match goal with
    | |- context [checked_run ?a ?f ?e ?t ?x ?p ?s1] =>
        destruct (checked_run_outcome a f e t x p s1 r files Hrun Hdir)
          as [Hres Hself];
        destruct (checked_run_findings a f e t x p s1 s r files eq_refl Hrun)
          as [He Hw]
    end.
    rewrite Hres, He, Hw, Hself. split; [|split].
    + intros msg ->. repeat split; reflexivity.
    + intros ->. cbn [self with_findings check_findings fst snd errors warnings].
      rewrite !app_nil_r. repeat split; reflexivity.
    + intros Hr. destruct r as [cp|[]]; try reflexivity. congruence.
Qed.

(** An instance: a Python block during whose check the keyboard
    interrupts. *)
Lemma checker_when_subprocess_fails_witness :
  let code := "interrupt()" in
  (@_test_python_code Demo.platform "/docs/a.md" code (Demo.start [])).1
  = Raise KeyboardInterrupt
  /\ warnings
       (self (@_test_python_code Demo.platform "/docs/a.md" code
                (Demo.start [])).2) = [].
Proof.
  intros code.
  assert (<["/tmp/tmpdoc0.py" := File code]> (fs (os (Demo.start [])))
          !! "/tmp/tmpdoc0.py" <> Some Dir) as Hdir
    by (rewrite lookup_insert_eq; discriminate).
  assert (@execute Demo.platform
            ["python"; "-m"; "py_compile"; "/tmp/tmpdoc0.py"] 5
            (<["/tmp/tmpdoc0.py" := File code]> (fs (os (Demo.start []))))
          = (Raise KeyboardInterrupt,
             <["/tmp/tmpdoc0.py" := File code]> (fs (os (Demo.start [])))))
    as Hrun by (vm_compute; reflexivity).
  pose proof (proj1 (@checker_when_subprocess_fails Demo.platform "/docs/a.md"
                       code "/tmp/tmpdoc0.py" (Demo.start []) eq_refl)
                eq_refl _ _ Hrun Hdir)
    as (_ & Hint & _).
  destruct (Hint eq_refl) as (H1 & _ & H3).
  exact (conj H1 H3).
Defined.

(** ** The command lines of a run *)

Global Instance spawns_only_pre : PreOrder spawns_only.
Proof.
  split.
  - intros s. exists []. rewrite app_nil_r. auto.
  - intros a b c (e1 & H1 & P1) (e2 & H2 & P2). exists (e1 ++ e2).
    rewrite H2, H1, app_assoc. split; [reflexivity | apply Forall_app; auto].
Qed.

Section Spawns.
Context {platform : Platform}.

Lemma spawns_only_same (s s' : State) : os s' = os s -> spawns_only s s'.
Proof. intros E. exists []. rewrite E, app_nil_r. auto. Qed.

Lemma subprocess_run_spawns (argv : list string) (t : nat) :
  allowed_command argv -> keeps spawns_only (subprocess_run argv t).
Proof.
  intros Hargv s. unfold subprocess_run.
  destruct (execute argv t (fs (os s))) as [r files]. exists [argv].
  cbn [snd os spawned]. auto.
Qed.

Lemma NamedTemporaryFile_spawns (suffix code : string) :
  keeps spawns_only (NamedTemporaryFile suffix code).
Proof.
  intros s. unfold NamedTemporaryFile.
  destruct (mktemp (fs (os s)) suffix); exists []; cbn [snd os spawned];
    rewrite app_nil_r; auto.
Qed.

Lemma unlink_spawns (p : string) : keeps spawns_only (unlink p).
Proof.
  intros s. unfold unlink.
  destruct (fs (os s) !! p) as [[c|]|]; exists []; cbn [snd os spawned];
    rewrite app_nil_r; auto.
Qed.

End Spawns.

Ltac allowed_tac :=
  solve [ left; reflexivity
        | right; eexists; left; reflexivity
        | right; eexists; right; reflexivity ].

Ltac spawns_tac :=
  repeat first
    [ keeps_step
    | refine (keeps_modify _ _ _); intros ?; apply spawns_only_same; reflexivity
    | apply NamedTemporaryFile_spawns
    | apply unlink_spawns
    | apply subprocess_run_spawns; allowed_tac ].

Section SpawnsRun.
Context {platform : Platform}.

Lemma run_all_tests_spawns (execute_examples fix_ : bool) :
  keeps spawns_only (run_all_tests execute_examples fix_).
Proof.
  unfold run_all_tests, md_file_step, _check_markdown_syntax, heading_step,
    _check_links, link_step, _check_common_issues, long_line_step,
    _test_code_examples, code_block_step, _test_python_code,
    _test_javascript_code, _test_bash_code.
  spawns_tac.
Qed.

End SpawnsRun.

(** X11. The tool starts three kinds of process and no other.  Every command
    line handed to [subprocess.run] during [run_all_tests], and so during
    [main], is [node --version], [python -m py_compile FILE] or
    [node --check FILE]: a block is compiled or syntax-checked, never
    executed, and a shell block starts nothing.  The command lines recorded
    before are kept, in place. *)
Theorem only_syntax_checkers_are_started {platform : Platform} :
  (forall execute_examples fix_ s,
     exists extra,
       spawned (os (run_all_tests execute_examples fix_ s).2)
       = spawned (os s) ++ extra
       /\ Forall allowed_command extra)
  /\ (forall args w,
        exists extra,
          spawned (main args w).2 = spawned w ++ extra
          /\ Forall allowed_command extra)
  /\ (forall filepath code s,
        spawned (os (_test_bash_code filepath code s).2) = spawned (os s)).
Proof.
  split; [intros ee f s; apply (run_all_tests_spawns ee f s)|].
  split.
  - intros args w. unfold main. cbv zeta.
    destruct (negb (path_exists w (Path_ (path args)))).
    { exists []. rewrite app_nil_r. auto. }
    unfold main_body. cbv zeta. rewrite bind_run.
    pose proof (run_all_tests_spawns
                  (if all args then true else execute_examples args)
                  (fix_ args) (mkState (init (Path_ (path args))) w)) as Hs.
    destruct (run_all_tests _ (fix_ args) _) as [[success|e] s1];
      cbn [snd] in Hs; [|exact Hs].
    rewrite bind_run.
    destruct (if all args then true else check_links args); [|exact Hs].
    rewrite bind_run.
    pose proof (check_external_links_unchanged (Path_ (path args)) s1) as Hsame.
    destruct (check_external_links _ s1) as [[broken|e] s2];
      cbn [snd] in Hsame; subst s2; [|exact Hs].
    destruct (negb (is_nil broken)); exact Hs.
  - intros filepath code s. rewrite (_test_bash_code_same_world filepath code s).
    reflexivity.
Qed.

(** ** Indented headings *)

Section Indented.

Lemma lstrip_char_id (c : ascii) (line : string) :
  Str.startswith line (String c EmptyString) = false ->
  Str.lstrip_char c line = line.
Proof.
  unfold Str.startswith. destruct line as [|a line]; [reflexivity|].
  cbn [Str.lstrip_char]. simpl String.prefix.
  destruct (ascii_dec c a) as [->|Hne].
  - destruct line; discriminate.
  - intros _. destruct (Ascii.eqb a c) eqn:E; [|reflexivity].
    apply Ascii.eqb_eq in E. congruence.
Qed.

Lemma heading_loop_indented (filepath : string) (l : list (nat * string))
    (s : State) :
  Forall (fun il => indented_heading il.2) l ->
  for_fold l 0 (heading_step filepath) s = (Ok 0, s).
Proof.
  induction 1 as [|[i line] l Hline _ IH]; cbn [for_fold]; [reflexivity|].
  rewrite bind_run. unfold heading_step at 1. cbn [snd] in Hline.
  destruct (Str.startswith (Str.strip line) "#") eqn:E; [|exact IH].
  rewrite (lstrip_char_id _ _ (Hline E)), Nat.sub_diag.
  rewrite bind_run. cbn [when Nat.ltb Nat.leb andb mret M_ret].
  exact IH.
Qed.

Lemma enumerate_snd {X : Type} (P : X -> Prop) (l : list X) (start : nat) :
  Forall P l -> Forall (fun il => P il.2) (enumerate start l).
Proof.
  intros H. revert start. induction H as [|x l Hx _ IH]; intros start;
    cbn [enumerate]; constructor; auto.
Qed.

End Indented.

(** X12. The hierarchy check takes the level of a heading from the line as
    written, not from the trimmed line, so a heading that is indented has
    level zero and is never reported, nor is the heading after it.  For a
    document in which every heading line is indented (starts with white
    space before its [#]), [_check_markdown_syntax] appends no warning of
    the heading hierarchy, however deep the headings jump: the warnings it
    appends are at most the one for several first-level headings. *)
Theorem indented_headings_are_not_checked (filepath content : string)
    (s : State) :
  Forall indented_heading (Str.split (Str.chr 10) content) ->
  new_warnings s (_check_markdown_syntax filepath content s).2
  = (if 1 <? length (List.filter is_h1 (Str.split (Str.chr 10) content))
     then [(filepath, h1_message)] else []).
Proof.
  intros Hlines. apply new_warnings_app.
  unfold _check_markdown_syntax, h1_message.
  destruct (1 <? _), (negb (is_nil _)), (negb (_ =? 0)).
  all: repeat (rewrite bind_run;
               cbn [when negb _add_warning _add_error modify mret M_ret]).
  all: rewrite (heading_loop_indented filepath _ _
                  (enumerate_snd _ _ 1 Hlines)).
  all: cbn [snd self warnings mret M_ret]; rewrite ?app_nil_r; reflexivity.
Qed.

(** An instance: a jump from the first to the fourth level, indented. *)
Lemma indented_headings_are_not_checked_witness :
  let content := Demo.lines [" # Title"; "text"; "  #### Deep"] in
  new_warnings (Demo.start [])
    (_check_markdown_syntax "/docs/a.md" content (Demo.start [])).2 = [].
Proof.
  intros content.
  refine (indented_headings_are_not_checked "/docs/a.md" content
            (Demo.start []) _).
  vm_compute. repeat constructor.
Defined.

(** ** The file system after a check *)

(** X13. A syntax check puts back the file system it found.  For a Python
    block that is checked (no placeholder), when the name of the temporary
    file is new and the subprocess leaves the file system as it got it, the
    file system after [_test_python_code] is the one before it, whatever the
    outcome of the subprocess; the same for a JavaScript block when both
    runs of [node] leave the file system as they got it. *)
Theorem check_restores_file_system {platform : Platform}
    (filepath code temp_file : string) (s : State) :
  has_placeholder code = false ->
  fs (os s) !! temp_file = None ->
  (mktemp (fs (os s)) ".py" = Some temp_file ->
   forall r,
     execute ["python"; "-m"; "py_compile"; temp_file] 5
       (<[temp_file := File code]> (fs (os s)))
     = (r, <[temp_file := File code]> (fs (os s))) ->
     fs (os (_test_python_code filepath code s).2) = fs (os s))
  /\ (forall version,
        execute ["node"; "--version"] 2 (fs (os s)) = (Ok version, fs (os s)) ->
        mktemp (fs (os s)) ".js" = Some temp_file ->
        forall r,
          execute ["node"; "--check"; temp_file] 5
            (<[temp_file := File code]> (fs (os s)))
          = (r, <[temp_file := File code]> (fs (os s))) ->
          fs (os (_test_javascript_code filepath code s).2) = fs (os s)).
Proof.
  intros Hcode Hnew. split.
  - intros Htmp r Hrun.
    rewrite (_test_python_code_run _ _ _ _ Hcode Htmp).
    match goal with
    | |- context [checked_run ?a ?f ?e ?t ?x ?p ?s1] =>
        rewrite (checked_run_spec a f e t x p s1 r _ Hrun)
    end.
    cbn [snd os fs]. unfold unlinked. rewrite lookup_insert_eq. cbn [snd].
    rewrite delete_insert_eq. apply delete_id, Hnew.
  - intros version Hnode Htmp r Hrun.
    rewrite (_test_javascript_code_run _ _ _ _ _ _ Hcode Hnode Htmp).
    match goal with
    | |- context [checked_run ?a ?f ?e ?t ?x ?p ?s1] =>
        rewrite (checked_run_spec a f e t x p s1 r _ Hrun)
    end.
    cbn [snd os fs]. unfold unlinked. rewrite lookup_insert_eq. cbn [snd].
    rewrite delete_insert_eq. apply delete_id, Hnew.
Qed.

(** An instance: the check of a Python block with a syntax error. *)
Lemma check_restores_file_system_witness :
  let code := "print((1)" in
  let s := Demo.start [("/docs/a.md", "# A")] in
  fs (os (@_test_python_code Demo.platform "/docs/a.md" code s).2) = fs (os s).
Proof.
  intros code s.
  refine (proj1 (@check_restores_file_system Demo.platform "/docs/a.md" code
                   "/tmp/tmpdoc0.py" s eq_refl _) eq_refl
            (Ok (mkCompleted 1 EmptyString "SyntaxError: invalid syntax")) _).
  - vm_compute. reflexivity.
  - vm_compute. reflexivity.
Defined.
